(** * terraform_parser.py: a Terraform-subset interpreter for DigitalOcean

    A shallow embedding of [src/antlr/program/terraform_parser.py]: the
    parse-tree listener ([TerraformListener]), token resolution, the droplet
    create-and-poll routine, the state file and the apply / destroy drivers,
    followed by the properties the specification states about them.

    The ANTLR-generated lexer and parser, the HTTP library and the JSON codec
    are collaborators of the program: the parse tree, the server's answers and
    the decoded JSON documents are inputs of the model. *)

From Stdlib Require Import String Ascii ZArith List Bool Lia.
From stdpp Require Import gmap strings list fin_maps pretty.

Open Scope string_scope.
Set Warnings "-register-all".

(* ================================================================= *)
(** ** Python strings *)

Definition dquote : ascii := "034"%char.
Definition dot : ascii := "."%char.

(** [s.lstrip(c)], [s.rstrip(c)] and [s.strip(c)] for a one-character set. *)
Fixpoint str_lstrip (c : ascii) (s : string) : string :=
  match s with
  | EmptyString => EmptyString
  | String a s' => if Ascii.eqb a c then str_lstrip c s' else s
  end.

Fixpoint str_rstrip (c : ascii) (s : string) : string :=
  match s with
  | EmptyString => EmptyString
  | String a s' =>
      match str_rstrip c s' with
      | EmptyString => if Ascii.eqb a c then EmptyString else String a EmptyString
      | r => String a r
      end
  end.

Definition str_strip (c : ascii) (s : string) : string :=
  str_rstrip c (str_lstrip c s).

(** [s.startswith(p)] *)
Definition str_startswith (s p : string) : bool := String.prefix p s.

(** [s.split(sep)] for a one-character separator: never the empty list. *)
Fixpoint str_split (sep : ascii) (s : string) : list string :=
  match s with
  | EmptyString => [EmptyString]
  | String a s' =>
      if Ascii.eqb a sep then EmptyString :: str_split sep s'
      else match str_split sep s' with
           | h :: t => String a h :: t
           | [] => [String a EmptyString]
           end
  end.

(** Does the character occur in the string? *)
Fixpoint str_contains (c : ascii) (s : string) : bool :=
  match s with
  | EmptyString => false
  | String a s' => Ascii.eqb a c || str_contains c s'
  end.

(** Truth value of a [str]: the empty string is falsy. *)
Definition str_truthy (s : string) : bool :=
  match s with EmptyString => false | _ => true end.

(** A token text as the lexer hands it over for a quoted literal. *)
Definition quoted (s : string) : string :=
  String dquote (s ++ String dquote EmptyString).

(* ================================================================= *)
(** ** Decoded JSON values and Python exceptions *)

(** What [json.load] and [response.json()] return, and what [json.dump] and
    [requests.post(json=...)] take. Dicts keep their insertion order.
    Floating-point numbers are left out. *)
Inductive json : Type :=
| JNull
| JBool (b : bool)
| JInt (z : Z)
| JStr (s : string)
| JList (l : list json)
| JDict (d : list (string * json)).

Inductive exn : Type :=
| Exception (msg : string)
| KeyError (key : json)
| IndexError
| TypeError
| AttributeError
| FileNotFoundError
| JSONDecodeError
| HTTPError (status : Z)
| RequestException (msg : string).

(** The program raises bare [Exception]s; the specification names them. *)
Definition UnsupportedProviderError : exn :=
  Exception "Only 'digitalocean' provider is supported.".
Definition MissingTokenError : exn :=
  Exception "No token specified in provider block.".
Definition UndefinedVariableError (name : string) : exn :=
  Exception ("Undefined variable '" ++ name ++ "' used in provider block.").
Definition MissingResourceError : exn :=
  Exception "Missing digitalocean_droplet resource.".

(** Pure code that may raise. *)
Inductive result (A : Type) : Type :=
| Ok (a : A)
| Err (e : exn).
Arguments Ok {A} a.
Arguments Err {A} e.

Class Monad (F : Type -> Type) : Type := {
  ret : forall {A}, A -> F A;
  bind : forall {A B}, F A -> (A -> F B) -> F B
}.

Declare Scope py_scope.
Delimit Scope py_scope with py.
Notation "x <- c ;; k" := (bind c (fun x => k))
  (at level 100, c at next level, right associativity) : py_scope.
Notation "c ;; k" := (bind c (fun _ => k))
  (at level 100, right associativity) : py_scope.
Open Scope py_scope.

#[export] Instance result_monad : Monad result := {
  ret := fun A a => Ok a;
  bind := fun A B c k => match c with Ok a => k a | Err e => Err e end
}.

Fixpoint assoc (k : string) (d : list (string * json)) : option json :=
  match d with
  | [] => None
  | (k', v) :: d' => if String.eqb k' k then Some v else assoc k d'
  end.

(** [v[k]] for a string key. *)
Definition getitem (v : json) (k : string) : result json :=
  match v with
  | JDict d =>
      match assoc k d with
      | Some x => Ok x
      | None => Err (KeyError (JStr k))
      end
  | _ => Err TypeError
  end.

Definition chars (s : string) : list json :=
  map (fun a => JStr (String a EmptyString)) (list_ascii_of_string s).

(** [v[0]] *)
Definition getitem0 (v : json) : result json :=
  match v with
  | JList (x :: _) => Ok x
  | JList [] => Err IndexError
  | JStr s =>
      match chars s with
      | x :: _ => Ok x
      | [] => Err IndexError
      end
  | JDict _ => Err (KeyError (JInt 0))
  | _ => Err TypeError
  end.

(** [v.get(k, default)]: only dicts have the method. *)
Definition dict_get (v : json) (k : string) (default : json) : result json :=
  match v with
  | JDict d =>
      match assoc k d with
      | Some x => Ok x
      | None => Ok default
      end
  | _ => Err AttributeError
  end.

(** The elements a [for] loop over [v] visits. *)
Definition iter (v : json) : result (list json) :=
  match v with
  | JList l => Ok l
  | JDict d => Ok (map (fun kv => JStr (fst kv)) d)
  | JStr s => Ok (chars s)
  | _ => Err TypeError
  end.

(** [v == s] for a string constant [s]. *)
Definition eq_str (v : json) (s : string) : bool :=
  match v with
  | JStr s' => String.eqb s' s
  | _ => false
  end.

(* ================================================================= *)
(** ** The world the program acts on *)

Inductive http_method : Type := POST | GET | DELETE.

(** One call of [requests.post], [requests.get] or [requests.delete]. *)
Record request : Type := Request {
  req_method : http_method;
  req_url : string;
  req_headers : list (string * string);
  req_json : option json
}.

(** A [requests.Response]: the status code and the decoded body
    ([None] when the body is not a JSON document). *)
Record response : Type := Response {
  status_code : Z;
  body : option json
}.

(** The content of [terraform.tfstate]: the JSON document the text encodes,
    or text that [json.load] rejects. *)
Inductive file_content : Type :=
| JsonDoc (v : json)
| NotJson.

Record world : Type := World {
  tfstate : option file_content;   (* [None]: the file does not exist *)
  http_log : list request;         (* the remote calls made so far, oldest first *)
  stdout : list string;            (* the lines printed so far *)
  slept : Z                        (* seconds spent in [time.sleep] *)
}.

Definition set_tfstate (f : option file_content) (w : world) : world :=
  World f (http_log w) (stdout w) (slept w).
Definition log_request (r : request) (w : world) : world :=
  World (tfstate w) (http_log w ++ [r]) (stdout w) (slept w).
Definition add_line (s : string) (w : world) : world :=
  World (tfstate w) (http_log w) (stdout w ++ [s]) (slept w).
Definition add_sleep (n : Z) (w : world) : world :=
  World (tfstate w) (http_log w) (stdout w) (slept w + n)%Z.

(** How a run of effectful code ends; [Diverge] stands for a loop that is
    still running when the fuel of the model is used up. *)
Inductive outcome (A : Type) : Type :=
| Return (a : A)
| Raise (e : exn)
| Diverge.
Arguments Return {A} a.
Arguments Raise {A} e.
Arguments Diverge {A}.

Definition M (A : Type) : Type := world -> outcome A * world.

#[export] Instance M_monad : Monad M := {
  ret := fun A a w => (Return a, w);
  bind := fun A B c k w =>
    match c w with
    | (Return a, w') => k a w'
    | (Raise e, w') => (Raise e, w')
    | (Diverge, w') => (Diverge, w')
    end
}.

Definition raise {A : Type} (e : exn) : M A := fun w => (Raise e, w).
Definition diverge {A : Type} : M A := fun w => (Diverge, w).

Definition lift {A : Type} (r : result A) : M A :=
  match r with
  | Ok a => ret a
  | Err e => raise e
  end.

Definition print (s : string) : M unit := fun w => (Return tt, add_line s w).
Definition sleep (n : Z) : M unit := fun w => (Return tt, add_sleep n w).

(** [try: c  except <handled>: h] *)
Definition try_except {A : Type} (c : M A) (handled : exn -> bool) (h : M A) : M A :=
  fun w =>
    match c w with
    | (Raise e, w') => if handled e then h w' else (Raise e, w')
    | r => r
    end.

Definition is_FileNotFoundError (e : exn) : bool :=
  match e with FileNotFoundError => true | _ => false end.

(** [json.load(open("terraform.tfstate", "r"))] *)
Definition read_tfstate : M json := fun w =>
  match tfstate w with
  | None => (Raise FileNotFoundError, w)
  | Some NotJson => (Raise JSONDecodeError, w)
  | Some (JsonDoc v) => (Return v, w)
  end.

(** [json.dump(state, open("terraform.tfstate", "w"))] *)
Definition write_tfstate (state : json) : M unit := fun w =>
  (Return tt, set_tfstate (Some (JsonDoc state)) w).

(** [os.remove("terraform.tfstate")] *)
Definition os_remove : M unit := fun w =>
  match tfstate w with
  | None => (Raise FileNotFoundError, w)
  | Some _ => (Return tt, set_tfstate None w)
  end.

(** [response.raise_for_status()]: 4xx and 5xx are errors. *)
Definition raise_for_status (r : response) : M unit :=
  if ((400 <=? status_code r) && (status_code r <? 600))%Z
  then raise (HTTPError (status_code r))
  else ret tt.

(** [response.json()] *)
Definition response_json (r : response) : result json :=
  match body r with
  | Some v => Ok v
  | None => Err JSONDecodeError
  end.

(* ================================================================= *)
(** ** The parse tree *)

(** A [keyValue] node: [IDENTIFIER().getText()] and [expr().getText()]. *)
Record keyValue : Type := KeyValue {
  IDENTIFIER : string;
  expr : string
}.

(** The three block kinds of the grammar, each with the text of its [STRING]
    tokens (quotes included) and the key/value pairs of its body in order. *)
Inductive block : Type :=
| VariableBlock (STRING : string) (body : list keyValue)
| ProviderBlock (STRING : string) (body : list keyValue)
| ResourceBlock (STRING0 STRING1 : string) (body : list keyValue).

(* ================================================================= *)
(** ** TerraformListener *)

Record TerraformListener : Type := Listener {
  variables : gmap string string;
  provider_token_expr : option string;
  droplet_config : gmap string string
}.

(** [__init__] *)
Definition new_listener : TerraformListener :=
  Listener ∅ None ∅.

Definition set_variable (k v : string) (self : TerraformListener) : TerraformListener :=
  Listener (<[k := v]> (variables self)) (provider_token_expr self) (droplet_config self).
Definition set_token_expr (e : string) (self : TerraformListener) : TerraformListener :=
  Listener (variables self) (Some e) (droplet_config self).
Definition set_config (k v : string) (self : TerraformListener) : TerraformListener :=
  Listener (variables self) (provider_token_expr self) (<[k := v]> (droplet_config self)).

(** [for x in xs: self = step x self] with effects. *)
Fixpoint for_each {A S : Type} (xs : list A) (step : A -> S -> M S) (s : S) : M S :=
  match xs with
  | [] => ret s
  | x :: xs' => s' <- step x s ;; for_each xs' step s'
  end.

Definition enterVariable (STRING : string) (body : list keyValue)
    (self : TerraformListener) : M TerraformListener :=
  let var_name := str_strip dquote STRING in
  for_each body (fun kv self =>
    let key := IDENTIFIER kv in
    if String.eqb key "default" then
      let value := str_strip dquote (expr kv) in
      let self := set_variable var_name value self in
      print ("[var] " ++ var_name ++ " = " ++ value) ;;
      ret self
    else ret self) self.

Definition enterProvider (STRING : string) (body : list keyValue)
    (self : TerraformListener) : M TerraformListener :=
  let provider_name := str_strip dquote STRING in
  if negb (String.eqb provider_name "digitalocean") then
    raise UnsupportedProviderError
  else
    for_each body (fun kv self =>
      let key := IDENTIFIER kv in
      let expr := expr kv in
      if String.eqb key "token" then ret (set_token_expr expr self)
      else ret self) self.

Definition enterResource (STRING0 STRING1 : string) (body : list keyValue)
    (self : TerraformListener) : M TerraformListener :=
  let type_ := str_strip dquote STRING0 in
  let name := str_strip dquote STRING1 in
  if negb (String.eqb type_ "digitalocean_droplet") then ret self
  else
    for_each body (fun kv self =>
      let key := IDENTIFIER kv in
      let val := str_strip dquote (expr kv) in
      ret (set_config key val self)) self.

(** [ParseTreeWalker().walk(listener, tree)]: the blocks in document order,
    each dispatched to the listener method of its kind. *)
Definition enter (b : block) (self : TerraformListener) : M TerraformListener :=
  match b with
  | VariableBlock s kvs => enterVariable s kvs self
  | ProviderBlock s kvs => enterProvider s kvs self
  | ResourceBlock s0 s1 kvs => enterResource s0 s1 kvs self
  end.

Definition walk (tree : list block) (listener : TerraformListener) : M TerraformListener :=
  for_each tree enter listener.

Definition resolve_token (self : TerraformListener) : result string :=
  match provider_token_expr self with
  | None => Err MissingTokenError
  | Some token_expr =>
      if negb (str_truthy token_expr) then Err MissingTokenError
      else if str_startswith token_expr "var." then
        match str_split dot token_expr !! 1%nat with
        | None => Err IndexError
        | Some var_name =>
            match variables self !! var_name with
            | Some v => Ok v
            | None => Err (UndefinedVariableError var_name)
            end
        end
      else Ok (str_strip dquote token_expr)
  end.

(* ================================================================= *)
(** ** The lifecycle: create, poll, persist, destroy *)

Section Program.

(** [FileStream], [TerraformSubsetLexer] and [TerraformSubsetParser] on the
    file of that path: the blocks of the document, or the exception raised. *)
Variable parse : string -> result (list block).

(** The provisioning API: its answer to a request, given the requests it
    has received before; [Err] when [requests] itself raises. *)
Variable api : list request -> request -> result response.

(** [str(v)] of a decoded list or dict (Python's [repr]), left abstract. *)
Variable repr : json -> string.

(** [str(v)] and [f"{v}"] *)
Definition py_str (v : json) : string :=
  match v with
  | JNull => "None"
  | JBool true => "True"
  | JBool false => "False"
  | JInt z => pretty z
  | JStr s => s
  | JList _ | JDict _ => repr v
  end.

Definition send (r : request) : M response := fun w =>
  match api (http_log w) r with
  | Ok resp => (Return resp, log_request r w)
  | Err e => (Raise e, log_request r w)
  end.

Definition requests_post (url : string) (headers : list (string * string))
    (payload : json) : M response :=
  send (Request POST url headers (Some payload)).
Definition requests_get (url : string) (headers : list (string * string)) : M response :=
  send (Request GET url headers None).
Definition requests_delete (url : string) (headers : list (string * string)) : M response :=
  send (Request DELETE url headers None).

(** [config[k]] on the listener's dict of strings. *)
Definition config_getitem (config : gmap string string) (k : string) : result json :=
  match config !! k with
  | Some v => Ok (JStr v)
  | None => Err (KeyError (JStr k))
  end.

(** [[n["ip_address"] for n in networks if n["type"] == "public"]] *)
Fixpoint public_ips (networks : list json) : result (list json) :=
  match networks with
  | [] => Ok []
  | n :: rest =>
      ty <- getitem n "type" ;;
      if eq_str ty "public" then
        a <- getitem n "ip_address" ;;
        ips <- public_ips rest ;;
        Ok (a :: ips)
      else public_ips rest
  end.

(** What one iteration of the polling loop computes from the answer. *)
Definition read_public_ips (resp : response) : result (list json) :=
  j <- response_json resp ;;
  droplet_info <- getitem j "droplet" ;;
  nets <- getitem droplet_info "networks" ;;
  networks <- getitem nets "v4" ;;
  ns <- iter networks ;;
  public_ips ns.

Definition droplet_url (droplet_id : json) : string :=
  "https://api.digitalocean.com/v2/droplets/" ++ py_str droplet_id.

(** The [while True] loop of [create_droplet]; one unit of fuel per turn. *)
Fixpoint wait_for_ip (fuel : nat) (droplet_id : json)
    (headers : list (string * string)) : M json :=
  match fuel with
  | O => diverge
  | S fuel' =>
      resp <- requests_get (droplet_url droplet_id) headers ;;
      ips <- lift (read_public_ips resp) ;;
      match ips with
      | ip :: _ => ret ip
      | [] => sleep 5 ;; wait_for_ip fuel' droplet_id headers
      end
  end.

Definition create_headers (api_token : string) : list (string * string) :=
  [("Content-Type", "application/json");
   ("Authorization", "Bearer " ++ api_token)].

Definition create_droplet (fuel : nat) (api_token : string)
    (config : gmap string string) : M (json * json) :=
  let url := "https://api.digitalocean.com/v2/droplets" in
  let headers := create_headers api_token in
  payload <- lift (
    name <- config_getitem config "name" ;;
    region <- config_getitem config "region" ;;
    size <- config_getitem config "size" ;;
    image <- config_getitem config "image" ;;
    Ok (JDict [("name", name); ("region", region); ("size", size);
               ("image", image); ("ssh_keys", JList []);
               ("backups", JBool false); ("ipv6", JBool false);
               ("user_data", JNull); ("private_networking", JNull);
               ("volumes", JNull); ("tags", JList [])])) ;;
  print "[*] Creating droplet..." ;;
  response <- requests_post url headers payload ;;
  raise_for_status response ;;
  droplet <- lift (j <- response_json response ;; getitem j "droplet") ;;
  droplet_id <- lift (getitem droplet "id") ;;
  print ("[+] Droplet created with ID: " ++ py_str droplet_id) ;;
  print "[*] Waiting for droplet to become active and assigned an IP..." ;;
  ip <- wait_for_ip fuel droplet_id headers ;;
  ret (droplet_id, ip).

(** The [attributes] dict [save_state_file] writes. *)
Definition state_attributes (droplet_config : gmap string string)
    (droplet_id ip : json) : result json :=
  let id := JStr (py_str droplet_id) in
  name <- config_getitem droplet_config "name" ;;
  region <- config_getitem droplet_config "region" ;;
  size <- config_getitem droplet_config "size" ;;
  image <- config_getitem droplet_config "image" ;;
  Ok (JDict [("id", id); ("name", name); ("region", region);
             ("size", size); ("image", image); ("ipv4_address", ip)]).

Definition state_document (attributes : json) : json :=
  JDict [("version", JInt 4);
         ("terraform_version", JStr "custom");
         ("resources", JList [
            JDict [("mode", JStr "managed");
                   ("type", JStr "digitalocean_droplet");
                   ("name", JStr "web");
                   ("provider", JStr "digitalocean");
                   ("instances", JList [
                      JDict [("attributes", attributes)]])]])].

Definition save_state_file (droplet_config : gmap string string)
    (droplet_id ip : json) : M unit :=
  attributes <- lift (state_attributes droplet_config droplet_id ip) ;;
  write_tfstate (state_document attributes) ;;
  print "[✓] State file saved: terraform.tfstate".

(** The [for resource in ...] loop of [load_state_file]. *)
Fixpoint find_droplet (resources : list json) : result (option json) :=
  match resources with
  | [] => Ok None
  | resource :: rest =>
      ty <- dict_get resource "type" JNull ;;
      if eq_str ty "digitalocean_droplet" then
        instances <- getitem resource "instances" ;;
        instance <- getitem0 instances ;;
        attrs <- getitem instance "attributes" ;;
        id <- getitem attrs "id" ;;
        name <- getitem attrs "name" ;;
        ip <- getitem attrs "ipv4_address" ;;
        Ok (Some (JDict [("id", id); ("name", name); ("ip", ip)]))
      else find_droplet rest
  end.

(** Returns the dict with keys [id], [name], [ip], or [None]. *)
Definition load_state_file : M (option json) :=
  try_except
    (state <- read_tfstate ;;
     lift (resources <- dict_get state "resources" (JList []) ;;
           rs <- iter resources ;;
           find_droplet rs))
    is_FileNotFoundError
    (print "[!] No terraform.tfstate file found" ;;
     ret None).

Definition destroy_droplet (api_token : string) (droplet_id : json) : M unit :=
  let url := droplet_url droplet_id in
  let headers := [("Authorization", "Bearer " ++ api_token)] in
  print ("[*] Destroying droplet with ID: " ++ py_str droplet_id) ;;
  response <- requests_delete url headers ;;
  raise_for_status response ;;
  print ("[✓] Droplet " ++ py_str droplet_id ++ " destroyed successfully").

(** The parse and the tree walk shared by apply and destroy. *)
Definition interpret (terraform_file : string) : M TerraformListener :=
  tree <- lift (parse terraform_file) ;;
  walk tree new_listener.

(** [not listener.droplet_config]: a dict is falsy when it is empty. *)
Definition dict_falsy (d : gmap string string) : bool :=
  bool_decide (d = ∅).

Definition terraform_apply (fuel : nat) (terraform_file : string) : M unit :=
  listener <- interpret terraform_file ;;
  token <- lift (resolve_token listener) ;;
  if dict_falsy (droplet_config listener) then raise MissingResourceError
  else
    created <- create_droplet fuel token (droplet_config listener) ;;
    let '(droplet_id, ip) := created in
    save_state_file (droplet_config listener) droplet_id ip ;;
    print ("[✓] Droplet available at IP: " ++ py_str ip) ;;
    print "[✓] Apply complete! Resources: 1 added, 0 changed, 0 destroyed.".

(** The [try: os.remove(...)  except FileNotFoundError: pass] of destroy. *)
Definition remove_state_file : M unit :=
  try_except
    (os_remove ;; print "[✓] State file removed")
    is_FileNotFoundError
    (ret tt).

Definition terraform_destroy (terraform_file : string) : M unit :=
  state_info <- load_state_file ;;
  match state_info with
  | None => print "[!] No state file found. Nothing to destroy."
  | Some info =>
      listener <- interpret terraform_file ;;
      token <- lift (resolve_token listener) ;;
      id <- lift (getitem info "id") ;;
      destroy_droplet token id ;;
      remove_state_file ;;
      print "[✓] Destroy complete! Resources: 0 added, 0 changed, 1 destroyed."
  end.

(** [main], after [argparse] has read the two flags and the path. *)
Definition main (fuel : nat) (apply destroy : bool) (terraform_file : string) : M unit :=
  if apply then terraform_apply fuel terraform_file
  else if destroy then terraform_destroy terraform_file
  else terraform_apply fuel terraform_file.

End Program.

(* ================================================================= *)
(** ** What the tree walk computes *)

(** The walk prints and may raise, but the listener it builds is a function of
    the tree alone; the functions below are that function, proved equal to the
    listener methods in [walk_computes]. *)

Definition is_key (k : string) (kv : keyValue) : bool := String.eqb (IDENTIFIER kv) k.

Definition variable_step (var_name : string) (m : gmap string string) (kv : keyValue)
    : gmap string string :=
  if is_key "default" kv then <[var_name := str_strip dquote (expr kv)]> m else m.

Definition token_step (t : option string) (kv : keyValue) : option string :=
  if is_key "token" kv then Some (expr kv) else t.

Definition config_step (m : gmap string string) (kv : keyValue) : gmap string string :=
  <[IDENTIFIER kv := str_strip dquote (expr kv)]> m.

Definition enter_listener (b : block) (self : TerraformListener) : result TerraformListener :=
  match b with
  | VariableBlock s kvs =>
      Ok (Listener (fold_left (variable_step (str_strip dquote s)) kvs (variables self))
                   (provider_token_expr self) (droplet_config self))
  | ProviderBlock s kvs =>
      if String.eqb (str_strip dquote s) "digitalocean"
      then Ok (Listener (variables self)
                        (fold_left token_step kvs (provider_token_expr self))
                        (droplet_config self))
      else Err UnsupportedProviderError
  | ResourceBlock s0 _ kvs =>
      if String.eqb (str_strip dquote s0) "digitalocean_droplet"
      then Ok (Listener (variables self) (provider_token_expr self)
                        (fold_left config_step kvs (droplet_config self)))
      else Ok self
  end.

Fixpoint walk_listener (tree : list block) (self : TerraformListener)
    : result TerraformListener :=
  match tree with
  | [] => Ok self
  | b :: rest => self' <- enter_listener b self ;; walk_listener rest self'
  end.

Definition outcome_of {A : Type} (r : result A) : outcome A :=
  match r with
  | Ok a => Return a
  | Err e => Raise e
  end.

(** Two worlds that differ at most in what has been printed. *)
Definition only_printed (w w' : world) : Prop :=
  tfstate w' = tfstate w /\ http_log w' = http_log w /\ slept w' = slept w.

(** Properties of blocks the claims speak about. *)
Definition unsupported_provider (b : block) : bool :=
  match b with
  | ProviderBlock s _ => negb (String.eqb (str_strip dquote s) "digitalocean")
  | _ => false
  end.

Definition declares_token (b : block) : bool :=
  match b with
  | ProviderBlock _ kvs => existsb (is_key "token") kvs
  | _ => false
  end.

Definition droplet_resource (b : block) : bool :=
  match b with
  | ResourceBlock s0 _ _ => String.eqb (str_strip dquote s0) "digitalocean_droplet"
  | _ => false
  end.

Definition declares_default (name : string) (b : block) : bool :=
  match b with
  | VariableBlock s kvs =>
      String.eqb (str_strip dquote s) name && existsb (is_key "default") kvs
  | _ => false
  end.

(* ================================================================= *)
(** ** Reads of the polling loop *)

(** The public addresses the loop sees when the server, having received the
    requests [log], is sent [r]. *)
Definition read_of (api : list request -> request -> result response)
    (log : list request) (r : request) : result (list json) :=
  resp <- api log r ;; read_public_ips resp.

(** The request each turn of the loop sends. *)
Definition poll_request (repr : json -> string) (droplet_id : json)
    (headers : list (string * string)) : request :=
  Request GET (droplet_url repr droplet_id) headers None.

(** The [k]-th read (from 0) of a loop entered with the log [log]: by then
    the server has also received the [k] earlier polls. *)
Definition nth_read (api : list request -> request -> result response)
    (log : list request) (r : request) (k : nat) : result (list json) :=
  read_of api (log ++ repeat r k) r.

(** A read collaborator that never reports a public address. *)
Definition never_ready (api : list request -> request -> result response) : Prop :=
  forall log r, req_method r = GET -> read_of api log r = Ok [].

(* ================================================================= *)
(** ** Sample inputs *)

(** The document of the specification's scenario. *)
Definition scenario_tree : list block :=
  [ VariableBlock (quoted "token") [KeyValue "default" (quoted "abc123")];
    ProviderBlock (quoted "digitalocean") [KeyValue "token" "var.token"];
    ResourceBlock (quoted "digitalocean_droplet") (quoted "web")
      [ KeyValue "name" (quoted "x");
        KeyValue "region" (quoted "nyc3");
        KeyValue "size" (quoted "s-1vcpu-1gb");
        KeyValue "image" (quoted "ubuntu-22-04-x64") ] ].

(** A parser collaborator that knows one file. *)
Definition parse_only (path : string) (tree : list block) (p : string) : result (list block) :=
  if String.eqb p path then Ok tree else Err FileNotFoundError.

Definition is_get (r : request) : bool :=
  match req_method r with GET => true | _ => false end.

Definition droplet_answer (networks : list json) : response :=
  Response 200
    (Some (JDict [("droplet",
       JDict [("id", JInt 42);
              ("networks", JDict [("v4", JList networks)])])])).

Definition public_network (ip : string) : json :=
  JDict [("ip_address", JStr ip); ("type", JStr "public")].
Definition private_network (ip : string) : json :=
  JDict [("ip_address", JStr ip); ("type", JStr "private")].

(** A server whose droplets get their public address after [n] reads. *)
Definition api_ready_after (n : nat) (log : list request) (r : request) : result response :=
  match req_method r with
  | POST => Ok (Response 202 (Some (JDict [("droplet", JDict [("id", JInt 42)])])))
  | GET =>
      if (length (filter (fun q => is_get q = true) log) <? n)%nat
      then Ok (droplet_answer [private_network "10.0.0.2"])
      else Ok (droplet_answer [private_network "10.0.0.2"; public_network "203.0.113.7"])
  | DELETE => Ok (Response 204 None)
  end.

(** A server that never assigns a public address. *)
Definition api_never_ready (log : list request) (r : request) : result response :=
  match req_method r with
  | POST => Ok (Response 202 (Some (JDict [("droplet", JDict [("id", JInt 42)])])))
  | GET => Ok (droplet_answer [private_network "10.0.0.2"])
  | DELETE => Ok (Response 204 None)
  end.

Definition no_repr (v : json) : string := EmptyString.

Definition never_parses (p : string) : result (list block) := Err FileNotFoundError.

(** A provider block without a [token] key. *)
Definition no_token_tree : list block :=
  [ ProviderBlock (quoted "digitalocean") [KeyValue "region" (quoted "nyc3")];
    ResourceBlock (quoted "digitalocean_droplet") (quoted "web")
      [KeyValue "name" (quoted "x")] ].

(** A provider of another type. *)
Definition aws_tree : list block :=
  [ ProviderBlock (quoted "aws") [KeyValue "token" (quoted "abc123")];
    ResourceBlock (quoted "digitalocean_droplet") (quoted "web")
      [KeyValue "name" (quoted "x")] ].

(** A resource of another type only. *)
Definition volume_tree : list block :=
  [ VariableBlock (quoted "token") [KeyValue "default" (quoted "abc123")];
    ProviderBlock (quoted "digitalocean") [KeyValue "token" "var.token"];
    ResourceBlock (quoted "digitalocean_volume") (quoted "data")
      [KeyValue "name" (quoted "v"); KeyValue "size" (quoted "10")] ].

Definition volume_listener : TerraformListener :=
  Listener (<["token" := "abc123"]> ∅) (Some "var.token") ∅.

(** The empty quoted literal as token. *)
Definition empty_token_tree : list block :=
  [ ProviderBlock (quoted "digitalocean") [KeyValue "token" (quoted EmptyString)] ].

(** A variable declared three times, the last time without a default. *)
Definition redeclared_tree : list block :=
  [ VariableBlock (quoted "t") [KeyValue "default" (quoted "1")];
    VariableBlock (quoted "t") [KeyValue "default" (quoted "2");
                                KeyValue "default" (quoted "3")];
    VariableBlock (quoted "t") [KeyValue "type" "string"] ].

Definition redeclared_listener : TerraformListener :=
  Listener (<["t" := "3"]> ∅) None ∅.

Definition redeclared_world : world :=
  World None [] ["[var] t = 1"; "[var] t = 2"; "[var] t = 3"] 0.

(** The configuration the scenario's resource block yields, and the same
    droplet in another region. *)
Definition scenario_config : gmap string string :=
  <["image" := "ubuntu-22-04-x64"]>
    (<["size" := "s-1vcpu-1gb"]> (<["region" := "nyc3"]> (<["name" := "x"]> ∅))).

Definition other_region_config : gmap string string :=
  <["region" := "sfo3"]> scenario_config.

Definition world0 : world := World None [] [] 0.

(* ================================================================= *)
(** ** Requests and blocks the further properties speak about *)

(** Does the block put the key into the droplet configuration? *)
Definition droplet_sets (k : string) (b : block) : bool :=
  match b with
  | ResourceBlock s0 _ kvs =>
      String.eqb (str_strip dquote s0) "digitalocean_droplet" && existsb (is_key k) kvs
  | _ => false
  end.

(** The body and the request [create_droplet] posts. *)
Definition create_payload (name region size image : string) : json :=
  JDict [("name", JStr name); ("region", JStr region); ("size", JStr size);
         ("image", JStr image); ("ssh_keys", JList []);
         ("backups", JBool false); ("ipv6", JBool false);
         ("user_data", JNull); ("private_networking", JNull);
         ("volumes", JNull); ("tags", JList [])].

Definition create_request (api_token name region size image : string) : request :=
  Request POST "https://api.digitalocean.com/v2/droplets"
    (create_headers api_token) (Some (create_payload name region size image)).

(** The request [destroy_droplet] sends. *)
Definition delete_request (repr : json -> string) (api_token : string)
    (droplet_id : json) : request :=
  Request DELETE (droplet_url repr droplet_id)
    [("Authorization", "Bearer " ++ api_token)] None.

(** [raise_for_status] lets the answer through. *)
Definition status_ok (r : response) : bool :=
  negb ((400 <=? status_code r) && (status_code r <? 600))%Z.

(** The world after the loop has polled [n] times, sleeping between polls. *)
Definition polled (r : request) (n : nat) (w : world) : world :=
  World (tfstate w) (http_log w ++ repeat r n) (stdout w)
        (slept w + 5 * Z.of_nat (n - 1))%Z.



(** A network entry that is well formed and not public. *)
Definition private_entry (n : json) : Prop :=
  exists ty, getitem n "type" = Ok ty /\ eq_str ty "public" = false.

(** [respects R c]: however [c] ends, the world it leaves is related by [R]
    to the one it started in. *)
Definition respects {A : Type} (R : world -> world -> Prop) (c : M A) : Prop :=
  forall w r w', c w = (r, w') -> R w w'.

Definition same_file (w w' : world) : Prop := tfstate w' = tfstate w.
Definition same_log (w w' : world) : Prop := http_log w' = http_log w.

(** The first of the four attributes [create_droplet] reads that the
    configuration lacks, in the order it reads them. *)
Definition first_missing (config : gmap string string) : option string :=
  match config !! "name", config !! "region", config !! "size", config !! "image" with
  | None, _, _, _ => Some "name"
  | _, None, _, _ => Some "region"
  | _, _, None, _ => Some "size"
  | _, _, _, None => Some "image"
  | _, _, _, _ => None
  end.

(** [response.json()["droplet"]["id"]] *)
Definition created_id (resp : response) : result json :=
  j <- response_json resp ;;
  droplet <- getitem j "droplet" ;;
  getitem droplet "id".

(** The world [create_droplet] enters its loop in. *)
Definition created_world (repr : json -> string) (post : request) (id : json)
    (w : world) : world :=
  add_line "[*] Waiting for droplet to become active and assigned an IP..."
    (add_line ("[+] Droplet created with ID: " ++ py_str repr id)
       (log_request post (add_line "[*] Creating droplet..." w))).

(** Between two worlds, requests were only added to the log, all of them
    of the kind [P]. *)
Definition sends_only (P : request -> bool) (w w' : world) : Prop :=
  exists t, http_log w' = (http_log w ++ t)%list /\ forallb P t = true.

Definition is_delete (r : request) : bool :=
  match req_method r with DELETE => true | _ => false end.

(** A droplet block that names the droplet and nothing else. *)
Definition name_only_tree : list block :=
  [ ProviderBlock (quoted "digitalocean") [KeyValue "token" (quoted "abc123")];
    ResourceBlock (quoted "digitalocean_droplet") (quoted "web")
      [KeyValue "name" (quoted "x")] ].

Definition name_only_listener : TerraformListener :=
  Listener ∅ (Some (quoted "abc123")) (<["name" := "x"]> ∅).

(** Two provider blocks and two droplet blocks. *)
Definition doubled_tree : list block :=
  [ ProviderBlock (quoted "digitalocean") [KeyValue "token" (quoted "first")];
    ResourceBlock (quoted "digitalocean_droplet") (quoted "a")
      [KeyValue "name" (quoted "one"); KeyValue "size" (quoted "small")];
    ProviderBlock (quoted "digitalocean")
      [KeyValue "token" "var.old"; KeyValue "token" "var.new";
       KeyValue "region" (quoted "nyc3")];
    ResourceBlock (quoted "digitalocean_droplet") (quoted "b")
      [KeyValue "name" (quoted "two")];
    ProviderBlock (quoted "digitalocean") [] ].


Definition scenario_listener : TerraformListener :=
  Listener (<["token" := "abc123"]> ∅) (Some "var.token") scenario_config.

Definition scenario_world : world := add_line "[var] token = abc123" world0.

(** A server that refuses every request. *)
Definition api_forbidden (log : list request) (r : request) : result response :=
  Ok (Response 403 None).

(** A server whose reads fail after the first. *)
Definition api_read_breaks (log : list request) (r : request) : result response :=
  match req_method r with
  | POST => Ok (Response 202 (Some (JDict [("droplet", JDict [("id", JInt 42)])])))
  | GET =>
      if (length (filter (fun q => is_get q = true) log) <? 1)%nat
      then Ok (droplet_answer [private_network "10.0.0.2"])
      else Ok (Response 404 (Some (JDict [("id", JStr "not_found")])))
  | DELETE => Ok (Response 204 None)
  end.

(** The state file after the scenario's apply. *)
Definition scenario_state : json :=
  state_document
    (JDict [("id", JStr "42"); ("name", JStr "x"); ("region", JStr "nyc3");
            ("size", JStr "s-1vcpu-1gb"); ("image", JStr "ubuntu-22-04-x64");
            ("ipv4_address", JStr "203.0.113.7")]).

Definition applied_world : world :=
  World (Some (JsonDoc scenario_state)) [] [] 0.

(* ================================================================= *)
(** ** Strings: splitting and stripping *)

Lemma str_split_no_sep (c : ascii) (s : string) :
  str_contains c s = false -> str_split c s = [s].
Proof.
  induction s as [|a s IH]; simpl; [reflexivity|].
  intros H. apply orb_false_iff in H as [Ha Hs].
  rewrite Ha, (IH Hs). reflexivity.
Qed.

Lemma str_split_app (c : ascii) (s t : string) :
  str_contains c s = false ->
  str_split c (s ++ String c t) = s :: str_split c t.
Proof.
  induction s as [|a s IH]; simpl.
  - intros _. rewrite Ascii.eqb_refl. reflexivity.
  - intros H. apply orb_false_iff in H as [Ha Hs].
    rewrite Ha, (IH Hs). reflexivity.
Qed.

Lemma str_app_nil_r (s : string) : s ++ EmptyString = s.
Proof.
  induction s as [|a s IH]; [reflexivity|].
  change (String a (s ++ EmptyString) = String a s). now rewrite IH.
Qed.

(** The second piece of [("var." ++ name ++ tail).split(".")] is [name] when
    [tail] is empty or starts at the next dot. *)
Lemma var_segment (name tail : string) :
  str_contains dot name = false ->
  tail = EmptyString \/ (exists rest, tail = String dot rest) ->
  str_split dot ("var." ++ name ++ tail) !! 1%nat = Some name.
Proof.
  intros Hname Htail.
  change ("var." ++ name ++ tail) with ("var" ++ String dot (name ++ tail)).
  rewrite str_split_app by reflexivity.
  destruct Htail as [-> | [rest ->]].
  - rewrite str_app_nil_r, str_split_no_sep by assumption. reflexivity.
  - rewrite str_split_app by assumption. reflexivity.
Qed.

Lemma startswith_var (x : string) : str_startswith ("var." ++ x) "var." = true.
Proof. destruct x; reflexivity. Qed.

Lemma resolve_token_var (self : TerraformListener) (name tail : string) :
  str_contains dot name = false ->
  tail = EmptyString \/ (exists rest, tail = String dot rest) ->
  provider_token_expr self = Some ("var." ++ name ++ tail) ->
  resolve_token self =
    match variables self !! name with
    | Some v => Ok v
    | None => Err (UndefinedVariableError name)
    end.
Proof.
  intros Hname Htail Hexpr. unfold resolve_token. rewrite Hexpr.
  rewrite (var_segment name tail Hname Htail).
  replace (str_truthy ("var." ++ name ++ tail)) with true by reflexivity.
  rewrite startswith_var.
  reflexivity.
Qed.

(* ================================================================= *)
(** ** The tree walk *)

Lemma only_printed_refl (w : world) : only_printed w w.
Proof. repeat split. Qed.

Lemma only_printed_trans (w1 w2 w3 : world) :
  only_printed w1 w2 -> only_printed w2 w3 -> only_printed w1 w3.
Proof. unfold only_printed. intuition congruence. Qed.

Lemma only_printed_add_line (s : string) (w : world) : only_printed w (add_line s w).
Proof. repeat split. Qed.

Lemma enterVariable_computes (s : string) (kvs : list keyValue)
    (self : TerraformListener) (w : world) :
  exists w',
    enterVariable s kvs self w =
      (outcome_of (enter_listener (VariableBlock s kvs) self), w')
    /\ only_printed w w'.
Proof.
  unfold enterVariable. simpl. revert self w.
  induction kvs as [|kv kvs IH]; intros [vars tok cfg] w; simpl.
  - exists w. split; [reflexivity | apply only_printed_refl].
  - unfold variable_step at 2, is_key.
    destruct (String.eqb (IDENTIFIER kv) "default"); simpl.
    + destruct (IH (set_variable (str_strip dquote s) (str_strip dquote (expr kv))
                      (Listener vars tok cfg))
                   (add_line ("[var] " ++ str_strip dquote s ++ " = " ++
                              str_strip dquote (expr kv)) w)) as (w' & E & P).
      exists w'. split; [exact E|].
      eapply only_printed_trans; [apply only_printed_add_line | exact P].
    + apply IH.
Qed.

Lemma enterProvider_computes (s : string) (kvs : list keyValue)
    (self : TerraformListener) (w : world) :
  enterProvider s kvs self w =
    (outcome_of (enter_listener (ProviderBlock s kvs) self), w).
Proof.
  unfold enterProvider. simpl.
  destruct (String.eqb (str_strip dquote s) "digitalocean"); simpl; [|reflexivity].
  revert self. induction kvs as [|kv kvs IH]; intros [vars tok cfg]; simpl.
  - reflexivity.
  - unfold token_step at 2, is_key.
    destruct (String.eqb (IDENTIFIER kv) "token"); simpl; apply IH.
Qed.

Lemma enterResource_computes (s0 s1 : string) (kvs : list keyValue)
    (self : TerraformListener) (w : world) :
  enterResource s0 s1 kvs self w =
    (outcome_of (enter_listener (ResourceBlock s0 s1 kvs) self), w).
Proof.
  unfold enterResource. simpl.
  destruct (String.eqb (str_strip dquote s0) "digitalocean_droplet"); simpl;
    [|reflexivity].
  revert self. induction kvs as [|kv kvs IH]; intros [vars tok cfg]; simpl.
  - reflexivity.
  - apply IH.
Qed.

Lemma enter_computes (b : block) (self : TerraformListener) (w : world) :
  exists w',
    enter b self w = (outcome_of (enter_listener b self), w') /\ only_printed w w'.
Proof.
  destruct b as [s kvs | s kvs | s0 s1 kvs]; unfold enter.
  - apply enterVariable_computes.
  - exists w. split; [apply enterProvider_computes | apply only_printed_refl].
  - exists w. split; [apply enterResource_computes | apply only_printed_refl].
Qed.

(** The walk never touches the state file or the network, never loops, and
    returns the listener [walk_listener] computes. *)
Lemma walk_computes (tree : list block) (self : TerraformListener) (w : world) :
  exists w',
    walk tree self w = (outcome_of (walk_listener tree self), w')
    /\ only_printed w w'.
Proof.
  unfold walk. revert self w.
  induction tree as [|b tree IH]; intros self w; simpl.
  - exists w. split; [reflexivity | apply only_printed_refl].
  - destruct (enter_computes b self w) as (w1 & E & P1). rewrite E.
    destruct (enter_listener b self) as [self'|e]; simpl.
    + destruct (IH self' w1) as (w2 & E2 & P2).
      exists w2. split; [exact E2 | eapply only_printed_trans; eassumption].
    + exists w1. split; [reflexivity | exact P1].
Qed.

Lemma walk_listener_app (t1 t2 : list block) (self : TerraformListener) :
  walk_listener (t1 ++ t2) self =
    (self' <- walk_listener t1 self ;; walk_listener t2 self').
Proof.
  revert self. induction t1 as [|b t1 IH]; intros self; simpl; [reflexivity|].
  destruct (enter_listener b self); simpl; [apply IH | reflexivity].
Qed.

Lemma walk_listener_unsupported (tree : list block) (self : TerraformListener) :
  existsb unsupported_provider tree = true ->
  walk_listener tree self = Err UnsupportedProviderError.
Proof.
  revert self. induction tree as [|b tree IH]; intros self; simpl; [discriminate|].
  destruct (unsupported_provider b) eqn:Hb; simpl.
  - intros _. destruct b as [s kvs | s kvs | s0 s1 kvs]; try discriminate.
    simpl in *. apply negb_true_iff in Hb. rewrite Hb. reflexivity.
  - intros H. destruct (enter_listener b self) as [self'|e] eqn:E; simpl.
    + apply IH, H.
    + destruct b as [s kvs | s kvs | s0 s1 kvs]; simpl in *.
      * discriminate.
      * destruct (String.eqb (str_strip dquote s) "digitalocean");
          [discriminate | congruence].
      * destruct (String.eqb (str_strip dquote s0) "digitalocean_droplet");
          discriminate.
Qed.

Lemma walk_listener_supported (tree : list block) (self : TerraformListener) :
  existsb unsupported_provider tree = false ->
  exists l, walk_listener tree self = Ok l.
Proof.
  revert self. induction tree as [|b tree IH]; intros self; simpl.
  - intros _. eexists. reflexivity.
  - intros H. apply orb_false_iff in H as [Hb Ht].
    destruct b as [s kvs | s kvs | s0 s1 kvs]; simpl in *.
    + apply IH, Ht.
    + apply negb_false_iff in Hb. rewrite Hb. simpl. apply IH, Ht.
    + destruct (String.eqb (str_strip dquote s0) "digitalocean_droplet");
        simpl; apply IH, Ht.
Qed.

Lemma fold_token_none (kvs : list keyValue) (t : option string) :
  existsb (is_key "token") kvs = false -> fold_left token_step kvs t = t.
Proof.
  revert t. induction kvs as [|kv kvs IH]; intros t; simpl; [reflexivity|].
  intros H. apply orb_false_iff in H as [Hk Hr].
  unfold token_step at 2. rewrite Hk. apply IH, Hr.
Qed.

Lemma fold_variable_no_default (n : string) (kvs : list keyValue) (m : gmap string string) :
  existsb (is_key "default") kvs = false -> fold_left (variable_step n) kvs m = m.
Proof.
  revert m. induction kvs as [|kv kvs IH]; intros m; simpl; [reflexivity|].
  intros H. apply orb_false_iff in H as [Hk Hr].
  unfold variable_step at 2. rewrite Hk. apply IH, Hr.
Qed.

Lemma fold_variable_other (n name : string) (kvs : list keyValue) (m : gmap string string) :
  n <> name -> fold_left (variable_step n) kvs m !! name = m !! name.
Proof.
  intros Hne. revert m. induction kvs as [|kv kvs IH]; intros m; simpl; [reflexivity|].
  rewrite IH. unfold variable_step. destruct (is_key "default" kv); [|reflexivity].
  apply lookup_insert_ne, Hne.
Qed.

(** Inside one variable block the last [default] is the one kept. *)
Lemma fold_variable_last (n d : string) (pre post : list keyValue) (m : gmap string string) :
  existsb (is_key "default") post = false ->
  fold_left (variable_step n) (pre ++ KeyValue "default" d :: post) m !! n =
    Some (str_strip dquote d).
Proof.
  intros Hpost. rewrite fold_left_app. simpl.
  rewrite fold_variable_no_default by exact Hpost.
  unfold variable_step at 1. simpl. apply lookup_insert_eq.
Qed.

Lemma fold_config_other (k : string) (kvs : list keyValue) (m : gmap string string) :
  existsb (is_key k) kvs = false -> fold_left config_step kvs m !! k = m !! k.
Proof.
  revert m. induction kvs as [|kv kvs IH]; intros m; simpl; [reflexivity|].
  intros H. apply orb_false_iff in H as [Hk Hr].
  rewrite (IH _ Hr). unfold config_step. apply lookup_insert_ne.
  unfold is_key in Hk. apply String.eqb_neq in Hk. exact Hk.
Qed.

(** Inside one resource block the last value of a key is the one kept. *)
Lemma fold_config_last (k v : string) (pre post : list keyValue) (m : gmap string string) :
  existsb (is_key k) post = false ->
  fold_left config_step (pre ++ KeyValue k v :: post) m !! k =
    Some (str_strip dquote v).
Proof.
  intros Hpost. rewrite fold_left_app. simpl.
  rewrite fold_config_other by exact Hpost.
  unfold config_step at 1. simpl. apply lookup_insert_eq.
Qed.

Lemma walk_listener_no_token (tree : list block) (self l : TerraformListener) :
  existsb declares_token tree = false ->
  walk_listener tree self = Ok l ->
  provider_token_expr l = provider_token_expr self.
Proof.
  revert self. induction tree as [|b tree IH]; intros self; simpl.
  - intros _ [= <-]. reflexivity.
  - intros H. apply orb_false_iff in H as [Hb Ht].
    destruct (enter_listener b self) as [self'|e] eqn:E; simpl; [|discriminate].
    intros Hw. rewrite (IH _ Ht Hw).
    destruct b as [s kvs | s kvs | s0 s1 kvs]; simpl in *.
    + injection E as <-. reflexivity.
    + destruct (String.eqb (str_strip dquote s) "digitalocean"); [|discriminate].
      injection E as <-. simpl. apply fold_token_none, Hb.
    + destruct (String.eqb (str_strip dquote s0) "digitalocean_droplet");
        injection E as <-; reflexivity.
Qed.

Lemma walk_listener_no_droplet (tree : list block) (self l : TerraformListener) :
  existsb droplet_resource tree = false ->
  walk_listener tree self = Ok l ->
  droplet_config l = droplet_config self.
Proof.
  revert self. induction tree as [|b tree IH]; intros self; simpl.
  - intros _ [= <-]. reflexivity.
  - intros H. apply orb_false_iff in H as [Hb Ht].
    destruct (enter_listener b self) as [self'|e] eqn:E; simpl; [|discriminate].
    intros Hw. rewrite (IH _ Ht Hw).
    destruct b as [s kvs | s kvs | s0 s1 kvs]; simpl in *.
    + injection E as <-. reflexivity.
    + destruct (String.eqb (str_strip dquote s) "digitalocean"); [|discriminate].
      injection E as <-. reflexivity.
    + rewrite Hb in E. injection E as <-. reflexivity.
Qed.

(** Blocks that give the name no default leave its entry alone. *)
Lemma walk_listener_keeps_variable (name : string) (tree : list block)
    (self l : TerraformListener) :
  existsb (declares_default name) tree = false ->
  walk_listener tree self = Ok l ->
  variables l !! name = variables self !! name.
Proof.
  revert self. induction tree as [|b tree IH]; intros self; simpl.
  - intros _ [= <-]. reflexivity.
  - intros H. apply orb_false_iff in H as [Hb Ht].
    destruct (enter_listener b self) as [self'|e] eqn:E; simpl; [|discriminate].
    intros Hw. rewrite (IH _ Ht Hw).
    destruct b as [s kvs | s kvs | s0 s1 kvs]; simpl in *.
    + injection E as <-. simpl.
      apply andb_false_iff in Hb as [Hn | Hd].
      * apply fold_variable_other. apply String.eqb_neq, Hn.
      * rewrite fold_variable_no_default by exact Hd. reflexivity.
    + destruct (String.eqb (str_strip dquote s) "digitalocean"); [|discriminate].
      injection E as <-. reflexivity.
    + destruct (String.eqb (str_strip dquote s0) "digitalocean_droplet");
        injection E as <-; reflexivity.
Qed.

(* ================================================================= *)
(** ** Token resolution *)

(** C2. For every variable table and every token expression [var.<name>]
    (the name an identifier, so without a dot): when the table holds a value
    for the name, resolution returns it; when the name is not in the table,
    resolution fails with [UndefinedVariableError] naming it; and once a
    variable block of that name with a [default] key has been entered, the
    value returned is that default (unquoted). *)
Theorem var_reference_resolution (name : string) (self : TerraformListener) :
  str_contains dot name = false ->
  provider_token_expr self = Some ("var." ++ name) ->
  (forall v, variables self !! name = Some v -> resolve_token self = Ok v) /\
  (variables self !! name = None ->
   resolve_token self = Err (UndefinedVariableError name)) /\
  (forall s d pre post w,
     str_strip dquote s = name ->
     existsb (is_key "default") post = false ->
     exists self' w',
       enterVariable s (pre ++ KeyValue "default" d :: post) self w = (Return self', w')
       /\ resolve_token self' = Ok (str_strip dquote d)).
Proof.
  intros Hname Hexpr.
  assert (R : forall l, provider_token_expr l = Some ("var." ++ name) ->
              resolve_token l = match variables l !! name with
                                | Some v => Ok v
                                | None => Err (UndefinedVariableError name)
                                end).
  { intros l Hl. apply (resolve_token_var l name EmptyString Hname).
    - left. reflexivity.
    - rewrite str_app_nil_r. exact Hl. }
  split; [|split].
  - intros v Hv. rewrite (R self Hexpr), Hv. reflexivity.
  - intros Hv. rewrite (R self Hexpr), Hv. reflexivity.
  - intros s d pre post w Hs Hpost.
    destruct (enterVariable_computes s (pre ++ KeyValue "default" d :: post) self w)
      as (w' & E & _).
    simpl in E. eexists. exists w'. split; [exact E|].
    rewrite R by exact Hexpr. simpl. rewrite Hs.
    rewrite fold_variable_last by exact Hpost. reflexivity.
Qed.

(** C10. A token expression [var.<name>.<rest>], with more than one dot, is
    resolved through the piece between the first and the second dot alone:
    the value of [<name>] when it is declared, and otherwise the failure
    names [<name>] and nothing of [<rest>]. *)
Theorem var_reference_first_segment (name rest : string) (self : TerraformListener) :
  str_contains dot name = false ->
  provider_token_expr self = Some ("var." ++ name ++ "." ++ rest) ->
  resolve_token self =
    match variables self !! name with
    | Some v => Ok v
    | None => Err (UndefinedVariableError name)
    end.
Proof.
  intros Hname Hexpr.
  apply (resolve_token_var self name ("." ++ rest) Hname); [|exact Hexpr].
  right. exists rest. reflexivity.
Qed.

(** C9, as the program has it. Resolution fails with the missing-token error
    exactly when no token expression was stored or the stored text is the
    empty string. The empty quoted literal is stored with its two quote
    characters, is therefore not empty, and resolves to the empty string. *)
Theorem missing_token_iff_unset_or_empty (self : TerraformListener) :
  (resolve_token self = Err MissingTokenError <->
   provider_token_expr self = None \/ provider_token_expr self = Some EmptyString)
  /\ resolve_token (set_token_expr (quoted EmptyString) self) = Ok EmptyString.
Proof.
  split; [|reflexivity].
  unfold resolve_token. destruct (provider_token_expr self) as [e|]; [|tauto].
  destruct e as [|a e]; [simpl; tauto|].
  change (negb (str_truthy (String a e))) with false. cbv iota.
  split.
  - unfold UndefinedVariableError, MissingTokenError.
    destruct (str_startswith (String a e) "var.").
    + destruct (str_split dot (String a e) !! 1%nat) as [n|]; [|intros [=]].
      destruct (variables self !! n); intros [=].
    + intros [=].
  - intros [[=] | [=]].
Qed.

(** C8. Duplicate declarations: entering a droplet resource block whose body
    lists a key several times records the value of the last occurrence; and
    after the walk of a document, a variable holds the default of the last
    block that gives its name one (within that block, the last [default]). *)
Theorem last_write_wins
    (s0 s1 k v : string) (pre post : list keyValue) (self : TerraformListener)
    (w : world)
    (t1 t2 : list block) (s d : string) (vpre vpost : list keyValue)
    (l : TerraformListener) (w0 w1 : world) :
  str_strip dquote s0 = "digitalocean_droplet" ->
  existsb (is_key k) post = false ->
  existsb (is_key "default") vpost = false ->
  existsb (declares_default (str_strip dquote s)) t2 = false ->
  walk (t1 ++ VariableBlock s (vpre ++ KeyValue "default" d :: vpost) :: t2)
       new_listener w0 = (Return l, w1) ->
  (exists self',
     enterResource s0 s1 (pre ++ KeyValue k v :: post) self w = (Return self', w)
     /\ droplet_config self' !! k = Some (str_strip dquote v))
  /\ variables l !! str_strip dquote s = Some (str_strip dquote d).
Proof.
  intros Hs0 Hpost Hvpost Ht2 Hwalk. split.
  - rewrite enterResource_computes. simpl. rewrite Hs0. simpl.
    eexists. split; [reflexivity|]. simpl.
    apply fold_config_last, Hpost.
  - destruct (walk_computes
                (t1 ++ VariableBlock s (vpre ++ KeyValue "default" d :: vpost) :: t2)
                new_listener w0) as (w' & E & _).
    rewrite Hwalk in E. rewrite walk_listener_app in E.
    destruct (walk_listener t1 new_listener) as [l1|e1]; simpl in E; [|discriminate].
    match type of E with
    | context [walk_listener t2 ?x] =>
        destruct (walk_listener t2 x) as [l2|e2] eqn:E2; simpl in E; [|discriminate]
    end.
    injection E as -> _.
    rewrite (walk_listener_keeps_variable _ _ _ _ Ht2 E2). simpl.
    apply fold_variable_last, Hvpost.
Qed.

(* ================================================================= *)
(** ** Running effectful code *)

Lemma bind_return {A B : Type} (c : M A) (k : A -> M B) (w w' : world) (a : A) :
  c w = (Return a, w') -> (x <- c ;; k x) w = k a w'.
Proof. intros H. simpl. rewrite H. reflexivity. Qed.

Lemma bind_raise {A B : Type} (c : M A) (k : A -> M B) (w w' : world) (e : exn) :
  c w = (Raise e, w') -> (x <- c ;; k x) w = (Raise e, w').
Proof. intros H. simpl. rewrite H. reflexivity. Qed.

Lemma bind_diverge {A B : Type} (c : M A) (k : A -> M B) (w w' : world) :
  c w = (Diverge, w') -> (x <- c ;; k x) w = (Diverge, w').
Proof. intros H. simpl. rewrite H. reflexivity. Qed.

Lemma lift_run {A : Type} (r : result A) (w : world) :
  lift r w = (outcome_of r, w).
Proof. destruct r; reflexivity. Qed.

Section Lifecycle.

Variable parse : string -> result (list block).
Variable api : list request -> request -> result response.
Variable repr : json -> string.

Lemma interpret_computes (file : string) (tree : list block) (w : world) :
  parse file = Ok tree ->
  exists w',
    interpret parse file w = (outcome_of (walk_listener tree new_listener), w')
    /\ only_printed w w'.
Proof.
  intros Hp. unfold interpret.
  destruct (walk_computes tree new_listener w) as (w' & E & P).
  exists w'. split; [|exact P].
  rewrite (bind_return _ _ w w tree); [exact E|].
  rewrite lift_run, Hp. reflexivity.
Qed.

(** Loading the state only reads the file and prints. *)
Lemma load_state_file_only_prints (w w' : world) (r : outcome (option json)) :
  load_state_file w = (r, w') -> only_printed w w'.
Proof.
  unfold load_state_file, try_except, read_tfstate. simpl.
  destruct (tfstate w) as [[state|]|]; simpl.
  - rewrite lift_run.
    destruct (outcome_of _) as [a|e|]; simpl.
    + intros [= _ <-]. apply only_printed_refl.
    + destruct (is_FileNotFoundError e); simpl.
      * intros [= _ <-]. apply only_printed_add_line.
      * intros [= _ <-]. apply only_printed_refl.
    + intros [= _ <-]. apply only_printed_refl.
  - intros [= _ <-]. apply only_printed_refl.
  - intros [= _ <-]. apply only_printed_add_line.
Qed.

Lemma load_state_file_absent (w : world) :
  tfstate w = None ->
  load_state_file w =
    (Return None, add_line "[!] No terraform.tfstate file found" w).
Proof.
  intros H. unfold load_state_file, try_except, read_tfstate. simpl.
  rewrite H. reflexivity.
Qed.

(** C3. For every document none of whose provider blocks has a [token] key,
    apply fails, and the log of remote calls is what it was: no create (nor
    any other) request has been sent. The failure is [MissingTokenError]
    whenever interpretation succeeds, that is, when every provider block is of
    the supported type. *)
Theorem apply_without_token (fuel : nat) (file : string) (tree : list block)
    (w : world) :
  parse file = Ok tree ->
  existsb declares_token tree = false ->
  exists e w',
    terraform_apply parse api repr fuel file w = (Raise e, w')
    /\ http_log w' = http_log w
    /\ (existsb unsupported_provider tree = false -> e = MissingTokenError).
Proof.
  intros Hp Htok.
  destruct (interpret_computes file tree w Hp) as (w' & E & P).
  destruct (existsb unsupported_provider tree) eqn:Hsup.
  - rewrite (walk_listener_unsupported tree new_listener Hsup) in E.
    exists UnsupportedProviderError, w'. split; [|split; [apply P | discriminate]].
    unfold terraform_apply. apply bind_raise, E.
  - destruct (walk_listener_supported tree new_listener Hsup) as (l & Hl).
    rewrite Hl in E. simpl in E.
    exists MissingTokenError, w'. split; [|split; [apply P | reflexivity]].
    unfold terraform_apply. rewrite (bind_return _ _ _ _ _ E).
    apply bind_raise. rewrite lift_run. unfold resolve_token.
    rewrite (walk_listener_no_token _ _ _ Htok Hl). reflexivity.
Qed.

(** C4. For every document with a provider block whose type is not
    [digitalocean], interpretation raises [UnsupportedProviderError]; so
    does apply; and neither they nor destroy send any request. *)
Theorem unsupported_provider_fails (fuel : nat) (file : string)
    (tree : list block) (w : world) :
  parse file = Ok tree ->
  existsb unsupported_provider tree = true ->
  (exists w', interpret parse file w = (Raise UnsupportedProviderError, w')
              /\ http_log w' = http_log w)
  /\ (exists w', terraform_apply parse api repr fuel file w =
                   (Raise UnsupportedProviderError, w')
                 /\ http_log w' = http_log w)
  /\ (forall r w', terraform_destroy parse api repr file w = (r, w') ->
                   http_log w' = http_log w
                   /\ (forall info w1,
                         load_state_file w = (Return (Some info), w1) ->
                         r = Raise UnsupportedProviderError)).
Proof.
  intros Hp Hbad.
  assert (I : forall w0, exists w', interpret parse file w0 =
              (Raise UnsupportedProviderError, w') /\ only_printed w0 w').
  { intros w0. destruct (interpret_computes file tree w0 Hp) as (w' & E & P).
    rewrite (walk_listener_unsupported tree new_listener Hbad) in E.
    exists w'. split; assumption. }
  split; [|split].
  - destruct (I w) as (w' & E & P). exists w'. split; [exact E | apply P].
  - destruct (I w) as (w' & E & P). exists w'. split; [|apply P].
    unfold terraform_apply. apply bind_raise, E.
  - intros r w'. unfold terraform_destroy.
    destruct (load_state_file w) as [[[info|]|e|] w1] eqn:L;
      pose proof (load_state_file_only_prints _ _ _ L) as P1.
    + rewrite (bind_return _ _ _ _ _ L).
      destruct (I w1) as (w2 & E & P2).
      rewrite (bind_raise _ _ _ _ _ E). intros [= <- <-].
      split; [apply (only_printed_trans _ _ _ P1 P2) | reflexivity].
    + rewrite (bind_return _ _ _ _ _ L). intros [= <- <-].
      split; [apply P1 | discriminate].
    + rewrite (bind_raise _ _ _ _ _ L). intros [= <- <-].
      split; [apply P1 | discriminate].
    + rewrite (bind_diverge _ _ _ _ L). intros [= <- <-].
      split; [apply P1 | discriminate].
Qed.

(** C5. A resource block of another type leaves the listener as it was. For
    a document without a [digitalocean_droplet] block, the configuration is
    empty after interpretation, and apply fails without any remote call; the
    failure is [MissingResourceError] whenever the steps before that check
    (interpretation, token resolution) have succeeded. *)
Theorem other_resources_ignored (fuel : nat) (file : string) (tree : list block)
    (w : world) :
  parse file = Ok tree ->
  existsb droplet_resource tree = false ->
  (forall s0 s1 kvs self w0,
     str_strip dquote s0 <> "digitalocean_droplet" ->
     enterResource s0 s1 kvs self w0 = (Return self, w0))
  /\ (forall l w1, interpret parse file w = (Return l, w1) -> droplet_config l = ∅)
  /\ exists e w',
       terraform_apply parse api repr fuel file w = (Raise e, w')
       /\ http_log w' = http_log w
       /\ (forall l w1 token,
             interpret parse file w = (Return l, w1) ->
             resolve_token l = Ok token ->
             e = MissingResourceError /\ w' = w1).
Proof.
  intros Hp Hres.
  destruct (interpret_computes file tree w Hp) as (w' & E & P).
  split; [|split].
  - intros s0 s1 kvs self w0 Hne. rewrite enterResource_computes. simpl.
    apply String.eqb_neq in Hne. rewrite Hne. reflexivity.
  - intros l w1 Hi. rewrite Hi in E.
    destruct (walk_listener tree new_listener) as [l'|e] eqn:Hl; simpl in E;
      [|discriminate].
    injection E as -> _.
    apply (walk_listener_no_droplet _ _ _ Hres Hl).
  - unfold terraform_apply.
    destruct (walk_listener tree new_listener) as [l|e] eqn:Hl; simpl in E.
    + pose proof (walk_listener_no_droplet _ _ _ Hres Hl) as Hcfg. simpl in Hcfg.
      rewrite (bind_return _ _ _ _ _ E).
      destruct (resolve_token l) as [token|e] eqn:Htok.
      * exists MissingResourceError, w'.
        rewrite (bind_return _ _ w' w' token) by reflexivity.
        rewrite Hcfg. split; [reflexivity|]. split; [apply P|].
        intros l1 w1 token1 Hi _. rewrite E in Hi. injection Hi as <- <-.
        split; reflexivity.
      * exists e, w'.
        rewrite (bind_raise _ _ w' w' e) by reflexivity.
        split; [reflexivity|]. split; [apply P|].
        intros l1 w1 token1 Hi Htok1. rewrite E in Hi. injection Hi as <- <-.
        congruence.
    + exists e, w'. rewrite (bind_raise _ _ _ _ _ E).
      split; [reflexivity|]. split; [apply P|].
      intros l1 w1 token1 Hi. rewrite E in Hi. discriminate Hi.
Qed.

(** C6. When loading finds no state record, destroy prints that there is
    nothing to destroy and returns; it has not parsed the document (the
    result is the same for every parser, one that raises included), sent no
    request and left the state file alone. A missing state file is such a
    case. *)
Theorem destroy_without_state (file : string) (w w1 : world) :
  load_state_file w = (Return None, w1) ->
  terraform_destroy parse api repr file w =
    (Return tt, add_line "[!] No state file found. Nothing to destroy." w1)
  /\ http_log w1 = http_log w
  /\ tfstate w1 = tfstate w
  /\ (tfstate w = None ->
      w1 = add_line "[!] No terraform.tfstate file found" w).
Proof.
  intros L. pose proof (load_state_file_only_prints _ _ _ L) as P.
  split; [|split; [apply P | split; [apply P|]]].
  - unfold terraform_destroy. rewrite (bind_return _ _ _ _ _ L). reflexivity.
  - intros Hnone. rewrite (load_state_file_absent w Hnone) in L.
    injection L as <-. reflexivity.
Qed.

(* --------------------------------------------------------------- *)
(** *** The polling loop *)

Lemma bind_agree {A B : Type} (c : M A) (k1 k2 : A -> M B) (w : world) :
  (forall a w', fst (k1 a w') = fst (k2 a w')) ->
  fst ((x <- c ;; k1 x) w) = fst ((x <- c ;; k2 x) w).
Proof. intros H. simpl. destruct (c w) as [[a|e|] w']; auto. Qed.

Lemma bind_stuck {A B : Type} (c1 c2 : M A) (k : A -> M B) (w : world) :
  fst (c1 w) = fst (c2 w) ->
  (forall a, fst (c2 w) <> Return a) ->
  fst ((x <- c1 ;; k x) w) = fst ((x <- c2 ;; k x) w).
Proof.
  simpl. destruct (c1 w) as [[a1|e1|] w1], (c2 w) as [[a2|e2|] w2]; simpl;
    intros E N; try discriminate E; try (exfalso; eapply N; reflexivity).
  - injection E as ->. reflexivity.
  - reflexivity.
Qed.

Lemma bind_no_return {A B : Type} (c : M A) (k : A -> M B) (w : world) :
  (forall a w' b, fst (k a w') <> Return b) ->
  forall b, fst ((x <- c ;; k x) w) <> Return b.
Proof.
  intros H b. simpl. destruct (c w) as [[a|e|] w']; simpl;
    [apply H | discriminate | discriminate].
Qed.

Lemma wait_for_ip_step (fuel : nat) (id : json) (headers : list (string * string))
    (w : world) :
  wait_for_ip api repr (S fuel) id headers w =
    let req := poll_request repr id headers in
    match read_of api (http_log w) req with
    | Err e => (Raise e, log_request req w)
    | Ok (ip :: _) => (Return ip, log_request req w)
    | Ok [] => wait_for_ip api repr fuel id headers (add_sleep 5 (log_request req w))
    end.
Proof.
  cbn [wait_for_ip]. unfold requests_get, send, read_of, poll_request.
  cbn [bind M_monad result_monad].
  destruct (api (http_log w) _) as [resp|e]; [|reflexivity].
  rewrite lift_run.
  destruct (read_public_ips resp) as [[|ip ips]|e]; reflexivity.
Qed.

Lemma nth_read_0 (log : list request) (r : request) :
  nth_read api log r 0 = read_of api log r.
Proof. unfold nth_read. simpl. rewrite app_nil_r. reflexivity. Qed.

Lemma nth_read_S (log : list request) (r : request) (k : nat) :
  nth_read api (log ++ [r]) r k = nth_read api log r (S k).
Proof. unfold nth_read. rewrite <- app_assoc. reflexivity. Qed.

(** As long as every read so far came back empty, the loop is still
    running. *)
Lemma wait_for_ip_diverges (fuel : nat) (id : json)
    (headers : list (string * string)) (w : world) :
  (forall k, (k < fuel)%nat ->
             nth_read api (http_log w) (poll_request repr id headers) k = Ok []) ->
  fst (wait_for_ip api repr fuel id headers w) = Diverge.
Proof.
  revert w. induction fuel as [|fuel IH]; intros w H; [reflexivity|].
  rewrite wait_for_ip_step. cbv zeta.
  rewrite <- nth_read_0, (H 0%nat) by lia.
  apply IH. intros k Hk. cbn [http_log add_sleep log_request].
  rewrite nth_read_S. apply H. lia.
Qed.

(** The loop returns [ip] within the fuel exactly when one of the first
    reads is non-empty with [ip] at its head and all reads before it were
    empty. *)
Lemma wait_for_ip_returns (fuel : nat) (id : json)
    (headers : list (string * string)) (w : world) (ip : json) :
  (exists w', wait_for_ip api repr fuel id headers w = (Return ip, w')) <->
  (exists k rest,
     (k < fuel)%nat
     /\ (forall j, (j < k)%nat ->
           nth_read api (http_log w) (poll_request repr id headers) j = Ok [])
     /\ nth_read api (http_log w) (poll_request repr id headers) k = Ok (ip :: rest)).
Proof.
  revert w. induction fuel as [|fuel IH]; intros w.
  - split; [intros (w' & [=]) | intros (k & _ & Hk & _); lia].
  - rewrite wait_for_ip_step. cbv zeta. rewrite <- nth_read_0.
    destruct (nth_read api (http_log w) _ 0) as [[|ip0 ips]|e] eqn:R0.
    + rewrite IH. cbn [http_log add_sleep log_request]. split.
      * intros (k & rest & Hk & Hbefore & Hat). exists (S k), rest.
        split; [lia|]. split.
        -- intros [|j] Hj; [exact R0|]. rewrite <- nth_read_S. apply Hbefore. lia.
        -- rewrite <- nth_read_S. exact Hat.
      * intros (k & rest & Hk & Hbefore & Hat). destruct k as [|k]; [congruence|].
        exists k, rest. split; [lia|]. split.
        -- intros j Hj. rewrite nth_read_S. apply Hbefore. lia.
        -- rewrite nth_read_S. exact Hat.
    + split.
      * intros (w' & [= -> _]). exists 0%nat, ips.
        split; [lia|]. split; [intros j Hj; lia | exact R0].
      * intros (k & rest & Hk & Hbefore & Hat). destruct k as [|k].
        -- rewrite R0 in Hat. injection Hat as -> _. eexists. reflexivity.
        -- rewrite (Hbefore 0%nat) in R0 by lia. discriminate.
    + split.
      * intros (w' & [=]).
      * intros (k & rest & Hk & Hbefore & Hat). destruct k as [|k].
        -- congruence.
        -- rewrite (Hbefore 0%nat) in R0 by lia. discriminate.
Qed.

Lemma bind_fst_diverge {A B : Type} (c : M A) (k : A -> M B) (w : world) :
  fst (c w) = Diverge -> fst ((x <- c ;; k x) w) = Diverge.
Proof. simpl. destruct (c w) as [[a|e|] w']; simpl; intros H; congruence. Qed.

Lemma bind_stays_stuck {A B : Type} (c : M A) (k : A -> M B) (w : world) :
  (forall a, fst (c w) <> Return a) ->
  forall b, fst ((x <- c ;; k x) w) <> Return b.
Proof.
  simpl. destruct (c w) as [[a|e|] w']; simpl; intros N b;
    [exfalso; eapply N; reflexivity | discriminate | discriminate].
Qed.

Lemma never_ready_wait (fuel : nat) (id : json) (headers : list (string * string))
    (w : world) :
  never_ready api -> fst (wait_for_ip api repr fuel id headers w) = Diverge.
Proof.
  intros Hnever. apply wait_for_ip_diverges. intros k _.
  apply Hnever. reflexivity.
Qed.

(** With a server that is never ready, [create_droplet] ends the same way
    whatever the fuel: it raises before the loop or is still polling. *)
Lemma never_ready_create (fuel : nat) (token : string) (config : gmap string string)
    (w : world) :
  never_ready api ->
  fst (create_droplet api repr fuel token config w) =
    fst (create_droplet api repr 0 token config w)
  /\ forall a, fst (create_droplet api repr 0 token config w) <> Return a.
Proof.
  intros Hnever. unfold create_droplet. cbv zeta. split.
  - do 8 (apply bind_agree; intros).
    rewrite !bind_fst_diverge; [reflexivity | reflexivity |].
    apply never_ready_wait, Hnever.
  - do 8 (apply bind_no_return; intros).
    rewrite bind_fst_diverge by reflexivity. discriminate.
Qed.

(** Among reads that all succeed, a non-empty one has a first. *)
Lemma first_non_empty_read (log : list request) (r : request) (n : nat) :
  (forall j, (j < n)%nat -> exists ips, nth_read api log r j = Ok ips) ->
  (forall j, (j < n)%nat -> nth_read api log r j = Ok [])
  \/ exists k ip rest,
       (k < n)%nat
       /\ (forall j, (j < k)%nat -> nth_read api log r j = Ok [])
       /\ nth_read api log r k = Ok (ip :: rest).
Proof.
  induction n as [|n IH]; intros Hok.
  - left. intros j Hj. lia.
  - destruct IH as [Hempty | (k & ip & rest & Hk & Hbefore & Hat)].
    + intros j Hj. apply Hok. lia.
    + destruct (Hok n) as [[|ip rest] Hn]; [lia | |].
      * left. intros j Hj.
        destruct (decide (j = n)) as [-> | Hne]; [exact Hn | apply Hempty; lia].
      * right. exists n, ip, rest. split; [lia|]. split; [exact Hempty | exact Hn].
    + right. exists k, ip, rest. split; [lia|]. split; assumption.
Qed.

(** C7. The polling loop has no bound. With a read collaborator that never
    reports a public address the loop is still running after any number of
    turns, and apply never returns: whatever the fuel, it ends as it does
    with none, by an exception raised before the loop or inside the loop.
    The loop is left with the address [ip] exactly when some read is
    non-empty with [ip] first and every read before it was empty; when all
    reads succeed, that is: exactly when some read is non-empty. *)
Theorem polling_is_unbounded (id : json) (headers : list (string * string))
    (file : string) (w : world) :
  let reads := nth_read api (http_log w) (poll_request repr id headers) in
  (never_ready api ->
   forall fuel,
     fst (wait_for_ip api repr fuel id headers w) = Diverge
     /\ fst (terraform_apply parse api repr fuel file w) =
          fst (terraform_apply parse api repr 0 file w)
     /\ fst (terraform_apply parse api repr fuel file w) <> Return tt)
  /\ (forall ip,
        (exists fuel w', wait_for_ip api repr fuel id headers w = (Return ip, w'))
        <->
        (exists k rest,
           (forall j, (j < k)%nat -> reads j = Ok []) /\ reads k = Ok (ip :: rest)))
  /\ ((forall k, exists ips, reads k = Ok ips) ->
      (exists fuel ip w', wait_for_ip api repr fuel id headers w = (Return ip, w'))
      <->
      (exists k ip rest, reads k = Ok (ip :: rest))).
Proof.
  intros reads.
  assert (Hiff : forall ip,
    (exists fuel w', wait_for_ip api repr fuel id headers w = (Return ip, w'))
    <-> (exists k rest,
           (forall j, (j < k)%nat -> reads j = Ok []) /\ reads k = Ok (ip :: rest))).
  { intros ip. split.
    - intros (fuel & Hret).
      apply wait_for_ip_returns in Hret as (k & rest & _ & Hbefore & Hat).
      exists k, rest. split; assumption.
    - intros (k & rest & Hbefore & Hat). exists (S k).
      apply wait_for_ip_returns. exists k, rest.
      split; [lia|]. split; assumption. }
  split; [|split].
  - intros Hnever fuel.
    assert (E : fst (terraform_apply parse api repr fuel file w) =
                fst (terraform_apply parse api repr 0 file w)).
    { unfold terraform_apply. do 2 (apply bind_agree; intros).
      destruct (dict_falsy _); [reflexivity|].
      apply bind_stuck.
      - apply (proj1 (never_ready_create _ _ _ _ Hnever)).
      - apply (proj2 (never_ready_create 0 _ _ _ Hnever)). }
    split; [apply never_ready_wait, Hnever|]. split; [exact E|].
    rewrite E. unfold terraform_apply.
    do 2 (apply bind_no_return; intros).
    destruct (dict_falsy _); [discriminate|].
    apply bind_stays_stuck.
    apply (proj2 (never_ready_create 0 _ _ _ Hnever)).
  - exact Hiff.
  - intros Hok. split.
    + intros (fuel & ip & w' & Hret).
      destruct (proj1 (Hiff ip)) as (k & rest & _ & Hat); [eauto|].
      exists k, ip, rest. exact Hat.
    + intros (k & ip & rest & Hat).
      destruct (first_non_empty_read (http_log w) (poll_request repr id headers)
                  (S k)) as [Hempty | (k' & ip' & rest' & _ & Hbefore & Hat')].
      * intros j _. apply Hok.
      * unfold reads in Hat. rewrite (Hempty k) in Hat by lia. discriminate.
      * destruct (proj2 (Hiff ip')) as (fuel & w' & Hret).
        -- exists k', rest'. split; assumption.
        -- exists fuel, ip', w'. exact Hret.
Qed.

End Lifecycle.

(* ================================================================= *)
(** ** The state file *)

Section StateStore.

Variable repr : json -> string.

(** C1, as the program has it. After [save_state_file], [load_state_file]
    returns a dict of three entries: [id], the saved identifier as a
    string; [name]; and [ip], the saved address. Region, size and image are
    written to the file but are not part of what is loaded. After the state
    file has been removed, loading returns [None]. *)
Theorem save_then_load (config : gmap string string) (id ip : json)
    (name region size image : string) (w : world) :
  config !! "name" = Some name ->
  config !! "region" = Some region ->
  config !! "size" = Some size ->
  config !! "image" = Some image ->
  (exists w',
     (save_state_file repr config id ip ;; load_state_file) w =
       (Return (Some (JDict [("id", JStr (py_str repr id));
                             ("name", JStr name);
                             ("ip", ip)])), w')
     /\ tfstate w' =
          Some (JsonDoc (state_document
            (JDict [("id", JStr (py_str repr id)); ("name", JStr name);
                    ("region", JStr region); ("size", JStr size);
                    ("image", JStr image); ("ipv4_address", ip)]))))
  /\ (exists w',
        (remove_state_file ;; load_state_file) w = (Return None, w')
        /\ tfstate w' = None).
Proof.
  intros Hname Hregion Hsize Himage. split.
  - eexists. unfold save_state_file, state_attributes, config_getitem.
    rewrite Hname, Hregion, Hsize, Himage. split; reflexivity.
  - unfold remove_state_file, load_state_file, try_except, os_remove, read_tfstate.
    simpl. destruct (tfstate w) as [f|] eqn:F; simpl.
    + eexists. split; reflexivity.
    + rewrite F. eexists. split; [reflexivity | exact F].
Qed.

End StateStore.

(* ================================================================= *)
(** ** The theorems at work *)

Lemma save_then_load_witness :
  exists w',
    (save_state_file no_repr scenario_config (JInt 42) (JStr "203.0.113.7") ;;
     load_state_file) world0 =
      (Return (Some (JDict [("id", JStr "42"); ("name", JStr "x");
                            ("ip", JStr "203.0.113.7")])), w').
Proof.
  destruct (save_then_load no_repr scenario_config (JInt 42) (JStr "203.0.113.7")
              "x" "nyc3" "s-1vcpu-1gb" "ubuntu-22-04-x64" world0
              eq_refl eq_refl eq_refl eq_refl) as [(w' & H & _) _].
  exists w'. exact H.
Defined.

(** C1 as stated fails: what is loaded after a save has no region, size or
    image, differs from the attributes saved, and is the same for a droplet
    saved with another region. *)
Lemma load_drops_region_size_image :
  exists loaded saved w',
    (save_state_file no_repr scenario_config (JInt 42) (JStr "203.0.113.7") ;;
     load_state_file) world0 = (Return (Some loaded), w')
    /\ state_attributes no_repr scenario_config (JInt 42) (JStr "203.0.113.7")
       = Ok saved
    /\ getitem saved "region" = Ok (JStr "nyc3")
    /\ getitem loaded "region" = Err (KeyError (JStr "region"))
    /\ getitem loaded "size" = Err (KeyError (JStr "size"))
    /\ getitem loaded "image" = Err (KeyError (JStr "image"))
    /\ loaded <> saved
    /\ fst ((save_state_file no_repr other_region_config (JInt 42)
               (JStr "203.0.113.7") ;; load_state_file) world0)
       = Return (Some loaded).
Proof.
  eexists. eexists. eexists.
  split; [vm_compute; reflexivity|].
  split; [vm_compute; reflexivity|].
  repeat (split; [reflexivity|]).
  split; [discriminate | reflexivity].
Qed.

Lemma var_reference_resolution_witness :
  resolve_token (Listener (<["token" := "abc123"]> ∅) (Some "var.token") ∅)
    = Ok "abc123"
  /\ resolve_token (Listener ∅ (Some "var.token") ∅)
     = Err (UndefinedVariableError "token").
Proof.
  split.
  - apply (proj1 (var_reference_resolution "token"
                    (Listener (<["token" := "abc123"]> ∅) (Some "var.token") ∅)
                    eq_refl eq_refl)).
    reflexivity.
  - apply (proj1 (proj2 (var_reference_resolution "token"
                           (Listener ∅ (Some "var.token") ∅) eq_refl eq_refl))).
    reflexivity.
Defined.

Lemma apply_without_token_witness :
  exists w',
    terraform_apply (parse_only "main.tf" no_token_tree) (api_ready_after 2) no_repr
      5 "main.tf" world0 = (Raise MissingTokenError, w')
    /\ http_log w' = http_log world0.
Proof.
  destruct (apply_without_token (parse_only "main.tf" no_token_tree)
              (api_ready_after 2) no_repr 5 "main.tf" no_token_tree world0
              eq_refl eq_refl) as (e & w' & Hrun & Hlog & He).
  exists w'. rewrite <- (He eq_refl). split; assumption.
Defined.

Lemma unsupported_provider_fails_witness :
  exists w',
    terraform_apply (parse_only "main.tf" aws_tree) (api_ready_after 2) no_repr
      5 "main.tf" world0 = (Raise UnsupportedProviderError, w')
    /\ http_log w' = http_log world0.
Proof.
  apply (unsupported_provider_fails (parse_only "main.tf" aws_tree)
           (api_ready_after 2) no_repr 5 "main.tf" aws_tree world0);
    reflexivity.
Defined.

Lemma other_resources_ignored_witness :
  interpret (parse_only "main.tf" volume_tree) "main.tf" world0 =
    (Return volume_listener, add_line "[var] token = abc123" world0)
  /\ resolve_token volume_listener = Ok "abc123"
  /\ terraform_apply (parse_only "main.tf" volume_tree) (api_ready_after 2) no_repr
       5 "main.tf" world0 =
       (Raise MissingResourceError, add_line "[var] token = abc123" world0).
Proof.
  split; [reflexivity|]. split; [reflexivity|].
  destruct (other_resources_ignored (parse_only "main.tf" volume_tree)
              (api_ready_after 2) no_repr 5 "main.tf" volume_tree world0
              eq_refl eq_refl) as (_ & _ & e & w' & Hrun & _ & He).
  destruct (He volume_listener (add_line "[var] token = abc123" world0) "abc123"
              eq_refl eq_refl) as [<- <-].
  exact Hrun.
Defined.

Lemma destroy_without_state_witness :
  terraform_destroy never_parses (api_ready_after 2) no_repr "main.tf" world0 =
    (Return tt,
     add_line "[!] No state file found. Nothing to destroy."
       (add_line "[!] No terraform.tfstate file found" world0)).
Proof.
  apply (destroy_without_state never_parses (api_ready_after 2) no_repr "main.tf"
           world0 (add_line "[!] No terraform.tfstate file found" world0)).
  reflexivity.
Defined.

Lemma api_never_ready_is_never_ready : never_ready api_never_ready.
Proof.
  intros log r H. unfold read_of, api_never_ready. rewrite H. reflexivity.
Defined.

Lemma polling_is_unbounded_witness :
  never_ready api_never_ready
  /\ forall fuel,
       fst (terraform_apply (parse_only "main.tf" scenario_tree) api_never_ready
              no_repr fuel "main.tf" world0) = Diverge.
Proof.
  split; [exact api_never_ready_is_never_ready|]. intros fuel.
  destruct (proj1 (polling_is_unbounded (parse_only "main.tf" scenario_tree)
                     api_never_ready no_repr JNull [] "main.tf" world0)
              api_never_ready_is_never_ready fuel) as (_ & E & _).
  rewrite E. reflexivity.
Defined.

Lemma last_write_wins_witness :
  walk redeclared_tree new_listener world0 = (Return redeclared_listener, redeclared_world)
  /\ (exists self',
        enterResource (quoted "digitalocean_droplet") (quoted "web")
          [KeyValue "name" (quoted "a"); KeyValue "size" (quoted "s");
           KeyValue "name" (quoted "b")] new_listener world0 = (Return self', world0)
        /\ droplet_config self' !! "name" = Some "b")
  /\ variables redeclared_listener !! "t" = Some "3".
Proof.
  split; [reflexivity|].
  apply (last_write_wins (quoted "digitalocean_droplet") (quoted "web")
           "name" (quoted "b")
           [KeyValue "name" (quoted "a"); KeyValue "size" (quoted "s")] []
           new_listener world0
           [VariableBlock (quoted "t") [KeyValue "default" (quoted "1")]]
           [VariableBlock (quoted "t") [KeyValue "type" "string"]]
           (quoted "t") (quoted "3") [KeyValue "default" (quoted "2")] []
           redeclared_listener world0 redeclared_world);
    reflexivity.
Defined.

(** C9 as stated fails: with [token] given as the empty quoted literal the
    walk stores the two quote characters, and resolution returns the empty
    string instead of raising. *)
Lemma empty_quoted_token_resolves :
  exists l,
    walk empty_token_tree new_listener world0 = (Return l, world0)
    /\ provider_token_expr l = Some (String dquote (String dquote EmptyString))
    /\ resolve_token l = Ok EmptyString
    /\ resolve_token l <> Err MissingTokenError.
Proof.
  eexists. split; [reflexivity|]. split; [reflexivity|].
  split; [reflexivity | discriminate].
Qed.

Lemma var_reference_first_segment_witness :
  resolve_token (Listener (<["a" := "1"]> ∅) (Some "var.a.b.c") ∅) = Ok "1"
  /\ resolve_token (Listener ∅ (Some "var.a.b.c") ∅)
     = Err (UndefinedVariableError "a").
Proof.
  split.
  - etransitivity.
    + apply (var_reference_first_segment "a" "b.c"
               (Listener (<["a" := "1"]> ∅) (Some "var.a.b.c") ∅) eq_refl eq_refl).
    + reflexivity.
  - etransitivity.
    + apply (var_reference_first_segment "a" "b.c"
               (Listener ∅ (Some "var.a.b.c") ∅) eq_refl eq_refl).
    + reflexivity.
Defined.

(* ================================================================= *)
(** ** The scenarios of the specification, run *)

Example split_var_expression :
  str_split dot "var.a.b.c" = ["var"; "a"; "b"; "c"]
  /\ str_split dot "a." = ["a"; EmptyString]
  /\ str_split dot EmptyString = [EmptyString].
Proof. repeat split. Qed.

Example strip_quotes :
  str_strip dquote (quoted "abc") = "abc"
  /\ str_strip dquote "abc" = "abc"
  /\ str_strip dquote (quoted (quoted "a")) = "a"
  /\ str_strip dquote (quoted EmptyString) = EmptyString.
Proof. repeat split. Qed.

(** Apply on the scenario document, the address appearing at the third read:
    one create, three reads, two sleeps, and the state record written. *)
Example scenario_apply :
  let run := terraform_apply (parse_only "main.tf" scenario_tree) (api_ready_after 2)
               no_repr 3 "main.tf" world0 in
  fst run = Return tt
  /\ map req_method (http_log (snd run)) = [POST; GET; GET; GET]
  /\ slept (snd run) = 10%Z
  /\ tfstate (snd run) =
       Some (JsonDoc (state_document
         (JDict [("id", JStr "42"); ("name", JStr "x"); ("region", JStr "nyc3");
                 ("size", JStr "s-1vcpu-1gb"); ("image", JStr "ubuntu-22-04-x64");
                 ("ipv4_address", JStr "203.0.113.7")])))
  /\ nth_error (http_log (snd run)) 0 =
       Some (Request POST "https://api.digitalocean.com/v2/droplets"
               (create_headers "abc123")
               (Some (JDict [("name", JStr "x"); ("region", JStr "nyc3");
                             ("size", JStr "s-1vcpu-1gb");
                             ("image", JStr "ubuntu-22-04-x64");
                             ("ssh_keys", JList []); ("backups", JBool false);
                             ("ipv6", JBool false); ("user_data", JNull);
                             ("private_networking", JNull); ("volumes", JNull);
                             ("tags", JList [])]))).
Proof. vm_compute. repeat split. Qed.

(** With one turn less the loop has not seen the address yet. *)
Example scenario_apply_short_of_fuel :
  fst (terraform_apply (parse_only "main.tf" scenario_tree) (api_ready_after 2)
         no_repr 2 "main.tf" world0) = Diverge.
Proof. vm_compute. reflexivity. Qed.

(** Destroy after that apply: one delete for the persisted identifier, and
    the state record is gone, so that a further load returns [None]. *)
Example scenario_destroy :
  let applied := snd (terraform_apply (parse_only "main.tf" scenario_tree)
                        (api_ready_after 2) no_repr 3 "main.tf" world0) in
  let run := terraform_destroy (parse_only "main.tf" scenario_tree)
               (api_ready_after 2) no_repr "main.tf" applied in
  fst run = Return tt
  /\ skipn 4 (http_log (snd run)) =
       [Request DELETE "https://api.digitalocean.com/v2/droplets/42"
          [("Authorization", "Bearer abc123")] None]
  /\ tfstate (snd run) = None
  /\ fst (load_state_file (snd run)) = Return None.
Proof. vm_compute. repeat split. Qed.

(* ================================================================= *)
(** ** More on the tree walk and token resolution *)

Lemma str_lstrip_clean (c : ascii) (s : string) :
  str_contains c s = false -> str_lstrip c s = s.
Proof.
  destruct s as [|a s]; simpl; [reflexivity|].
  intros H. apply orb_false_iff in H as [-> _]. reflexivity.
Qed.

Lemma str_rstrip_clean (c : ascii) (s : string) :
  str_contains c s = false -> str_rstrip c s = s.
Proof.
  induction s as [|a s IH]; simpl; [reflexivity|].
  intros H. apply orb_false_iff in H as [Ha Hs].
  rewrite (IH Hs), Ha. destruct s; reflexivity.
Qed.

Lemma str_rstrip_app_sep (c : ascii) (s : string) :
  str_contains c s = false ->
  str_rstrip c (s ++ String c EmptyString) = s.
Proof.
  induction s as [|a s IH].
  - intros _. simpl. rewrite Ascii.eqb_refl. reflexivity.
  - simpl. intros H. apply orb_false_iff in H as [Ha Hs].
    change (String a s ++ String c EmptyString)
      with (String a (s ++ String c EmptyString)).
    simpl. rewrite (IH Hs), Ha. destruct s; reflexivity.
Qed.

Lemma str_strip_quoted (s : string) :
  str_contains dquote s = false -> str_strip dquote (quoted s) = s.
Proof.
  intros H. unfold str_strip, quoted.
  change (str_lstrip dquote (String dquote (s ++ String dquote EmptyString)))
    with (str_lstrip dquote (s ++ String dquote EmptyString)).
  destruct s as [|a s]; [reflexivity|].
  change (String a s ++ String dquote EmptyString)
    with (String a (s ++ String dquote EmptyString)).
  pose proof H as H'. simpl in H'. apply orb_false_iff in H' as [Ha _].
  simpl str_lstrip. rewrite Ha.
  apply (str_rstrip_app_sep dquote (String a s) H).
Qed.

Lemma fold_token_last (e : string) (pre post : list keyValue) (t : option string) :
  existsb (is_key "token") post = false ->
  fold_left token_step (pre ++ KeyValue "token" e :: post) t = Some e.
Proof.
  intros Hpost. rewrite fold_left_app. simpl.
  rewrite fold_token_none by exact Hpost. reflexivity.
Qed.

Lemma walk_listener_keeps_attribute (k : string) (tree : list block)
    (self l : TerraformListener) :
  existsb (droplet_sets k) tree = false ->
  walk_listener tree self = Ok l ->
  droplet_config l !! k = droplet_config self !! k.
Proof.
  revert self. induction tree as [|b tree IH]; intros self; simpl.
  - intros _ [= <-]. reflexivity.
  - intros H. apply orb_false_iff in H as [Hb Ht].
    destruct (enter_listener b self) as [self'|e] eqn:E; simpl; [|discriminate].
    intros Hw. rewrite (IH _ Ht Hw).
    destruct b as [s kvs | s kvs | s0 s1 kvs]; simpl in *.
    + injection E as <-. reflexivity.
    + destruct (String.eqb (str_strip dquote s) "digitalocean"); [|discriminate].
      injection E as <-. reflexivity.
    + destruct (String.eqb (str_strip dquote s0) "digitalocean_droplet");
        injection E as <-; [|reflexivity].
      simpl in *. apply fold_config_other, Hb.
Qed.

(** X1. A token given as a quoted literal resolves to the text between the
    quotes, and a bare token that does not start with [var.] resolves to
    itself; no variable is looked up. *)
Theorem literal_token_resolves (s : string) (self : TerraformListener) :
  str_contains dquote s = false ->
  (provider_token_expr self = Some (quoted s) -> resolve_token self = Ok s)
  /\ (provider_token_expr self = Some s ->
      s <> EmptyString ->
      str_startswith s "var." = false ->
      resolve_token self = Ok s).
Proof.
  intros Hs. split.
  - intros He. unfold resolve_token. rewrite He.
    change (negb (str_truthy (quoted s))) with false. cbv iota.
    replace (str_startswith (quoted s) "var.") with false by reflexivity.
    rewrite (str_strip_quoted s Hs). reflexivity.
  - intros He Hne Hvar. unfold resolve_token. rewrite He, Hvar.
    destruct s as [|a s]; [congruence|].
    change (negb (str_truthy (String a s))) with false. cbv iota.
    unfold str_strip.
    rewrite (str_lstrip_clean _ _ Hs), (str_rstrip_clean _ _ Hs). reflexivity.
Qed.

(** X2. The token expression kept after the walk is the raw text (quotes
    included) of the last [token] key of the last provider block that has
    one. *)
Theorem provider_token_last_wins (t1 t2 : list block) (s e : string)
    (pre post : list keyValue) (l : TerraformListener) (w w' : world) :
  existsb (is_key "token") post = false ->
  existsb declares_token t2 = false ->
  walk (t1 ++ ProviderBlock s (pre ++ KeyValue "token" e :: post) :: t2)
       new_listener w = (Return l, w') ->
  provider_token_expr l = Some e.
Proof.
  intros Hpost Ht2 Hwalk.
  destruct (walk_computes
              (t1 ++ ProviderBlock s (pre ++ KeyValue "token" e :: post) :: t2)
              new_listener w) as (w1 & E & _).
  rewrite Hwalk in E. rewrite walk_listener_app in E.
  destruct (walk_listener t1 new_listener) as [l1|e1]; simpl in E; [|discriminate].
  destruct (String.eqb (str_strip dquote s) "digitalocean"); simpl in E;
    [|discriminate].
  match type of E with
  | context [walk_listener t2 ?x] =>
      destruct (walk_listener t2 x) as [l2|e2] eqn:E2; simpl in E; [|discriminate]
  end.
  injection E as -> _.
  rewrite (walk_listener_no_token _ _ _ Ht2 E2). simpl.
  apply fold_token_last, Hpost.
Qed.

(** X3. Droplet resource blocks are merged into one configuration: after the
    walk a key holds the value (unquoted) of its last occurrence in the last
    droplet block that has the key, whatever other droplet blocks follow. *)
Theorem droplet_blocks_merge (t1 t2 : list block) (s0 s1 k v : string)
    (pre post : list keyValue) (l : TerraformListener) (w w' : world) :
  str_strip dquote s0 = "digitalocean_droplet" ->
  existsb (is_key k) post = false ->
  existsb (droplet_sets k) t2 = false ->
  walk (t1 ++ ResourceBlock s0 s1 (pre ++ KeyValue k v :: post) :: t2)
       new_listener w = (Return l, w') ->
  droplet_config l !! k = Some (str_strip dquote v).
Proof.
  intros Hs0 Hpost Ht2 Hwalk.
  destruct (walk_computes
              (t1 ++ ResourceBlock s0 s1 (pre ++ KeyValue k v :: post) :: t2)
              new_listener w) as (w1 & E & _).
  rewrite Hwalk in E. rewrite walk_listener_app in E.
  destruct (walk_listener t1 new_listener) as [l1|e1]; simpl in E; [|discriminate].
  rewrite Hs0 in E. simpl in E.
  match type of E with
  | context [walk_listener t2 ?x] =>
      destruct (walk_listener t2 x) as [l2|e2] eqn:E2; simpl in E; [|discriminate]
  end.
  injection E as -> _.
  rewrite (walk_listener_keeps_attribute _ _ _ _ Ht2 E2). simpl.
  apply fold_config_last, Hpost.
Qed.

(** X4. A variable block without a [default] key does nothing at all: the
    listener is returned as it was and nothing is printed, whatever other
    keys the block has. *)
Theorem variable_without_default (s : string) (kvs : list keyValue)
    (self : TerraformListener) (w : world) :
  existsb (is_key "default") kvs = false ->
  enterVariable s kvs self w = (Return self, w).
Proof.
  unfold enterVariable. cbv zeta.
  induction kvs as [|kv kvs IH]; simpl; [reflexivity|].
  intros H. apply orb_false_iff in H as [Hk Hr].
  unfold is_key in Hk. rewrite Hk. simpl. apply IH, Hr.
Qed.

(** X5. Interpretation has no effect but printing: for every tree the walk
    ends (it returns a listener or raises), and the state file, the log of
    remote calls and the clock are what they were. *)
Theorem walk_only_prints (tree : list block) (self : TerraformListener) (w : world) :
  exists r w',
    walk tree self w = (r, w')
    /\ r <> Diverge
    /\ tfstate w' = tfstate w
    /\ http_log w' = http_log w
    /\ slept w' = slept w.
Proof.
  destruct (walk_computes tree self w) as (w' & E & P).
  exists (outcome_of (walk_listener tree self)), w'.
  split; [exact E|]. split; [|exact P].
  destruct (walk_listener tree self); discriminate.
Qed.

(* ================================================================= *)
(** ** Effects that respect a relation between worlds *)

Section Respects.

Variable R : world -> world -> Prop.
Hypothesis R_refl : forall w, R w w.
Hypothesis R_trans : forall w1 w2 w3, R w1 w2 -> R w2 w3 -> R w1 w3.

Lemma respects_ret {A : Type} (a : A) : respects R (ret a).
Proof. intros w r w' [= _ <-]. apply R_refl. Qed.

Lemma respects_raise {A : Type} (e : exn) : respects R (@raise A e).
Proof. intros w r w' [= _ <-]. apply R_refl. Qed.

Lemma respects_diverge {A : Type} : respects R (@diverge A).
Proof. intros w r w' [= _ <-]. apply R_refl. Qed.

Lemma respects_lift {A : Type} (x : result A) : respects R (lift x).
Proof. destruct x; [apply respects_ret | apply respects_raise]. Qed.

Lemma respects_bind {A B : Type} (c : M A) (k : A -> M B) :
  respects R c -> (forall a, respects R (k a)) -> respects R (x <- c ;; k x).
Proof.
  intros Hc Hk w r w'. simpl.
  destruct (c w) as [[a|e|] w1] eqn:E; pose proof (Hc _ _ _ E) as H1.
  - intros H2. apply Hk in H2. eapply R_trans; eassumption.
  - intros [= _ <-]. exact H1.
  - intros [= _ <-]. exact H1.
Qed.

Lemma respects_try_except {A : Type} (c h : M A) (handled : exn -> bool) :
  respects R c -> respects R h -> respects R (try_except c handled h).
Proof.
  intros Hc Hh w r w'. unfold try_except.
  destruct (c w) as [[a|e|] w1] eqn:E; pose proof (Hc _ _ _ E) as H1.
  - intros [= _ <-]. exact H1.
  - destruct (handled e).
    + intros H2. apply Hh in H2. eapply R_trans; eassumption.
    + intros [= _ <-]. exact H1.
  - intros [= _ <-]. exact H1.
Qed.

Lemma respects_for_each {A S : Type} (xs : list A) (step : A -> S -> M S) (s : S) :
  (forall x s', respects R (step x s')) -> respects R (for_each xs step s).
Proof.
  intros Hstep. revert s. induction xs as [|x xs IH]; intros s; simpl for_each.
  - apply respects_ret.
  - apply respects_bind; [apply Hstep | intros s'; apply IH].
Qed.

End Respects.

Lemma same_file_refl (w : world) : same_file w w.
Proof. reflexivity. Qed.

Lemma same_file_trans (w1 w2 w3 : world) :
  same_file w1 w2 -> same_file w2 w3 -> same_file w1 w3.
Proof. unfold same_file. congruence. Qed.

Lemma same_log_refl (w : world) : same_log w w.
Proof. reflexivity. Qed.

Lemma same_log_trans (w1 w2 w3 : world) :
  same_log w1 w2 -> same_log w2 w3 -> same_log w1 w3.
Proof. unfold same_log. congruence. Qed.

Lemma print_same_file (s : string) : respects same_file (print s).
Proof. intros w r w' [= _ <-]. reflexivity. Qed.

Lemma print_same_log (s : string) : respects same_log (print s).
Proof. intros w r w' [= _ <-]. reflexivity. Qed.

Lemma raise_for_status_respects (R : world -> world -> Prop) (resp : response) :
  (forall w, R w w) -> respects R (raise_for_status resp).
Proof.
  intros HR. unfold raise_for_status.
  destruct (_ && _); [apply respects_raise | apply respects_ret]; exact HR.
Qed.

Lemma walk_respects (R : world -> world -> Prop) (tree : list block)
    (self : TerraformListener) :
  (forall w w', only_printed w w' -> R w w') -> respects R (walk tree self).
Proof.
  intros HR w r w' Hrun.
  destruct (walk_computes tree self w) as (w1 & E & P).
  rewrite Hrun in E. injection E as _ <-. apply HR, P.
Qed.

(* ================================================================= *)
(** ** More on the lifecycle *)

Lemma first_missing_none (config : gmap string string) :
  first_missing config = None ->
  exists name region size image,
    config !! "name" = Some name /\ config !! "region" = Some region
    /\ config !! "size" = Some size /\ config !! "image" = Some image.
Proof.
  unfold first_missing.
  destruct (config !! "name") as [name|]; [|discriminate].
  destruct (config !! "region") as [region|]; [|discriminate].
  destruct (config !! "size") as [size|]; [|discriminate].
  destruct (config !! "image") as [image|]; [|discriminate].
  intros _. exists name, region, size, image. repeat split.
Qed.

Lemma dict_falsy_lookup (config : gmap string string) (k v : string) :
  config !! k = Some v -> dict_falsy config = false.
Proof.
  intros H. unfold dict_falsy. apply bool_decide_eq_false.
  intros ->. rewrite lookup_empty in H. discriminate.
Qed.

Section MoreLifecycle.

Variable parse : string -> result (list block).
Variable api : list request -> request -> result response.
Variable repr : json -> string.

Lemma interpret_respects (R : world -> world -> Prop) (file : string) :
  (forall w1 w2 w3, R w1 w2 -> R w2 w3 -> R w1 w3) ->
  (forall w w', only_printed w w' -> R w w') ->
  respects R (interpret parse file).
Proof.
  intros HT HR. unfold interpret. apply respects_bind; [exact HT | |].
  - intros w r w' H. rewrite lift_run in H. injection H as _ <-.
    apply HR, only_printed_refl.
  - intros tree. apply walk_respects, HR.
Qed.

Lemma interpret_only_prints (file : string) (w w' : world)
    (r : outcome TerraformListener) :
  interpret parse file w = (r, w') -> only_printed w w'.
Proof.
  intros H.
  exact (interpret_respects only_printed file only_printed_trans
           (fun _ _ P => P) w r w' H).
Qed.

Lemma send_same_file (r : request) : respects same_file (send api r).
Proof.
  intros w res w'. unfold send.
  destruct (api (http_log w) r); intros [= _ <-]; reflexivity.
Qed.




(** The loop, run to the read that ends it. *)
Lemma wait_for_ip_run (id : json) (headers : list (string * string)) (k : nat) :
  forall (fuel : nat) (w : world) (found : result (list json)),
    (k < fuel)%nat ->
    (forall j, (j < k)%nat ->
       nth_read api (http_log w) (poll_request repr id headers) j = Ok []) ->
    nth_read api (http_log w) (poll_request repr id headers) k = found ->
    found <> Ok [] ->
    wait_for_ip api repr fuel id headers w =
      (match found with
       | Ok (ip :: _) => Return ip
       | Ok [] => Diverge
       | Err e => Raise e
       end,
       polled (poll_request repr id headers) (S k) w).
Proof.
  induction k as [|k IH]; intros fuel w found Hfuel Hbefore Hat Hne.
  - destruct fuel as [|fuel]; [lia|].
    rewrite wait_for_ip_step. cbv zeta.
    rewrite <- nth_read_0, Hat.
    assert (W : log_request (poll_request repr id headers) w =
                polled (poll_request repr id headers) 1 w).
    { unfold polled, log_request. simpl. f_equal. lia. }
    rewrite W. destruct found as [[|ip ips]|e]; [congruence | reflexivity ..].
  - destruct fuel as [|fuel]; [lia|].
    rewrite wait_for_ip_step. cbv zeta.
    rewrite <- nth_read_0, (Hbefore 0%nat) by lia.
    rewrite (IH fuel _ found); [| lia | | | exact Hne].
    + f_equal. unfold polled. cbn [tfstate http_log stdout slept add_sleep log_request].
      f_equal; [|lia].
      rewrite <- app_assoc. reflexivity.
    + intros j Hj. cbn [http_log add_sleep log_request].
      rewrite nth_read_S. apply Hbefore. lia.
    + cbn [http_log add_sleep log_request]. rewrite nth_read_S. exact Hat.
Qed.

(** Up to its loop, [create_droplet] with the four attributes present and the
    create request accepted. *)
Lemma create_droplet_reaches_loop (fuel : nat) (token : string)
    (config : gmap string string) (name region size image : string)
    (resp : response) (id : json) (w : world) :
  config !! "name" = Some name ->
  config !! "region" = Some region ->
  config !! "size" = Some size ->
  config !! "image" = Some image ->
  api (http_log w) (create_request token name region size image) = Ok resp ->
  status_ok resp = true ->
  created_id resp = Ok id ->
  create_droplet api repr fuel token config w =
    (ip <- wait_for_ip api repr fuel id (create_headers token) ;; ret (id, ip))
      (created_world repr (create_request token name region size image) id w).
Proof.
  intros Hn Hr Hs Hi Hpost Hok Hid.
  unfold create_droplet, config_getitem. cbv zeta.
  rewrite Hn, Hr, Hs, Hi.
  unfold requests_post, send, raise_for_status.
  cbn [bind M_monad result_monad lift ret print http_log add_line].
  fold (create_payload name region size image).
  fold (create_request token name region size image).
  rewrite Hpost.
  unfold status_ok in Hok. apply negb_true_iff in Hok. rewrite Hok.
  unfold created_id in Hid. cbn [bind result_monad] in Hid.
  cbn [bind M_monad result_monad lift ret raise].
  destruct (response_json resp) as [j|e]; [|discriminate].
  destruct (getitem j "droplet") as [d|e]; [|discriminate].
  cbn [lift ret M_monad]. rewrite Hid. reflexivity.
Qed.

(** X6. Apply, when everything goes well. If the document interprets, its
    token resolves, the droplet configuration has name, region, size and
    image, the server accepts the create request and answers with an
    identifier, and the read number [k] is the first to show a public
    address, then apply (given fuel for more than [k] turns) returns; it has
    sent the create request and then [k + 1] identical reads and nothing
    else, has slept five seconds after each read but the last, and has
    written the state document with the identifier as a string, the four
    attributes and the first public address. *)
Theorem apply_succeeds (fuel k : nat) (file : string) (w w1 : world)
    (l : TerraformListener) (token name region size image : string)
    (resp : response) (id ip : json) (rest : list json) :
  let post := create_request token name region size image in
  let poll := poll_request repr id (create_headers token) in
  interpret parse file w = (Return l, w1) ->
  resolve_token l = Ok token ->
  droplet_config l !! "name" = Some name ->
  droplet_config l !! "region" = Some region ->
  droplet_config l !! "size" = Some size ->
  droplet_config l !! "image" = Some image ->
  api (http_log w) post = Ok resp ->
  status_ok resp = true ->
  created_id resp = Ok id ->
  (forall j, (j < k)%nat -> nth_read api (http_log w ++ [post])%list poll j = Ok []) ->
  nth_read api (http_log w ++ [post])%list poll k = Ok (ip :: rest) ->
  (k < fuel)%nat ->
  exists w',
    terraform_apply parse api repr fuel file w = (Return tt, w')
    /\ http_log w' = (http_log w ++ post :: repeat poll (S k))%list
    /\ slept w' = (slept w + 5 * Z.of_nat k)%Z
    /\ tfstate w' =
         Some (JsonDoc (state_document
           (JDict [("id", JStr (py_str repr id)); ("name", JStr name);
                   ("region", JStr region); ("size", JStr size);
                   ("image", JStr image); ("ipv4_address", ip)]))).
Proof.
  intros post poll Hi Ht Hn Hr Hs Him Hpost Hok Hid Hbefore Hat Hfuel.
  destruct (interpret_only_prints _ _ _ _ Hi) as (_ & Hlog & Hslept).
  rewrite <- Hlog in Hpost, Hbefore, Hat.
  assert (Hc : create_droplet api repr fuel token (droplet_config l) w1 =
               (Return (id, ip), polled poll (S k) (created_world repr post id w1))).
  { rewrite (create_droplet_reaches_loop fuel token _ name region size image
               resp id w1 Hn Hr Hs Him Hpost Hok Hid).
    fold post.
    rewrite (bind_return _ _ _ _ ip
               (wait_for_ip_run id (create_headers token) k fuel
                  (created_world repr post id w1) (Ok (ip :: rest))
                  Hfuel Hbefore Hat ltac:(discriminate))).
    reflexivity. }
  unfold terraform_apply.
  rewrite (bind_return _ _ _ _ _ Hi).
  rewrite (bind_return _ _ w1 w1 token) by (rewrite lift_run, Ht; reflexivity).
  rewrite (dict_falsy_lookup _ _ _ Hn).
  rewrite (bind_return _ _ _ _ _ Hc).
  unfold save_state_file, state_attributes, config_getitem.
  rewrite Hn, Hr, Hs, Him.
  eexists. split; [reflexivity|].
  cbn [http_log slept tfstate set_tfstate add_line polled created_world log_request].
  rewrite Hlog, Hslept, <- app_assoc.
  repeat split. f_equal. f_equal. lia.
Qed.

(** X7. The four attributes are read before anything is sent. If the droplet
    configuration is not empty but lacks name, region, size or image, apply
    raises [KeyError] for the first of them (in that order) that is missing;
    no request has been sent and the state file is untouched. *)
Theorem apply_missing_attribute (fuel : nat) (file : string) (w w1 : world)
    (l : TerraformListener) (token key : string) :
  interpret parse file w = (Return l, w1) ->
  resolve_token l = Ok token ->
  droplet_config l <> ∅ ->
  first_missing (droplet_config l) = Some key ->
  terraform_apply parse api repr fuel file w = (Raise (KeyError (JStr key)), w1)
  /\ http_log w1 = http_log w
  /\ tfstate w1 = tfstate w.
Proof.
  intros Hi Ht Hne Hmiss.
  destruct (interpret_only_prints _ _ _ _ Hi) as (Hfile & Hlog & _).
  split; [|split; assumption].
  unfold terraform_apply.
  rewrite (bind_return _ _ _ _ _ Hi).
  rewrite (bind_return _ _ w1 w1 token) by (rewrite lift_run, Ht; reflexivity).
  replace (dict_falsy (droplet_config l)) with false
    by (symmetry; apply bool_decide_eq_false; exact Hne).
  apply bind_raise. unfold create_droplet. cbv zeta. apply bind_raise.
  rewrite lift_run. f_equal.
  unfold first_missing in Hmiss. unfold config_getitem.
  destruct (droplet_config l !! "name"); [|injection Hmiss as <-; reflexivity].
  destruct (droplet_config l !! "region"); [|injection Hmiss as <-; reflexivity].
  destruct (droplet_config l !! "size"); [|injection Hmiss as <-; reflexivity].
  destruct (droplet_config l !! "image"); [discriminate|].
  injection Hmiss as <-. reflexivity.
Qed.

(** X8. When the create request is refused, by an answer with a status from
    400 to 599 or by the transport raising, apply fails with that error
    ([HTTPError] with the status in the first case); the create request is
    the only request sent, no read follows, and no state file is written. *)
Theorem apply_create_rejected (fuel : nat) (file : string) (w w1 : world)
    (l : TerraformListener) (token name region size image : string) :
  let post := create_request token name region size image in
  interpret parse file w = (Return l, w1) ->
  resolve_token l = Ok token ->
  droplet_config l !! "name" = Some name ->
  droplet_config l !! "region" = Some region ->
  droplet_config l !! "size" = Some size ->
  droplet_config l !! "image" = Some image ->
  ((exists e0, api (http_log w) post = Err e0)
   \/ exists resp, api (http_log w) post = Ok resp /\ status_ok resp = false) ->
  exists e w',
    terraform_apply parse api repr fuel file w = (Raise e, w')
    /\ http_log w' = (http_log w ++ [post])%list
    /\ tfstate w' = tfstate w
    /\ (forall e0, api (http_log w) post = Err e0 -> e = e0)
    /\ (forall resp, api (http_log w) post = Ok resp ->
                     e = HTTPError (status_code resp)).
Proof.
  intros post Hi Ht Hn Hr Hs Him Hpost.
  destruct (interpret_only_prints _ _ _ _ Hi) as (Hfile & Hlog & _).
  rewrite <- Hlog in Hpost.
  assert (Hc : exists e,
             create_droplet api repr fuel token (droplet_config l) w1 =
               (Raise e, log_request post (add_line "[*] Creating droplet..." w1))
             /\ (forall e0, api (http_log w1) post = Err e0 -> e = e0)
             /\ (forall resp, api (http_log w1) post = Ok resp ->
                              e = HTTPError (status_code resp))).
  { unfold create_droplet, config_getitem. cbv zeta.
    rewrite Hn, Hr, Hs, Him.
    unfold requests_post, send, raise_for_status.
    cbn [bind M_monad result_monad lift ret print http_log add_line].
    fold (create_payload name region size image).
    fold (create_request token name region size image). fold post.
    destruct Hpost as [(e0 & Herr) | (resp & Hresp & Hbad)].
    - rewrite Herr. eexists. split; [reflexivity|]. split.
      + intros e1 [= <-]. reflexivity.
      + intros resp [=].
    - rewrite Hresp. unfold status_ok in Hbad. apply negb_false_iff in Hbad.
      rewrite Hbad. eexists. split; [reflexivity|]. split.
      + intros e1 [=].
      + intros resp' [= <-]. reflexivity. }
  destruct Hc as (e & Hc & He0 & He).
  exists e. eexists. split; [|split; [|split; [|split]]].
  - unfold terraform_apply.
    rewrite (bind_return _ _ _ _ _ Hi).
    rewrite (bind_return _ _ w1 w1 token) by (rewrite lift_run, Ht; reflexivity).
    rewrite (dict_falsy_lookup _ _ _ Hn).
    apply bind_raise, Hc.
  - cbn [http_log log_request add_line]. rewrite Hlog. reflexivity.
  - cbn [tfstate log_request add_line]. exact Hfile.
  - rewrite <- Hlog. exact He0.
  - rewrite <- Hlog. exact He.
Qed.


(** X10. A failed read is not retried. When the reads before read [k] showed
    no public address and read [k] raises (the transport raises, the body is
    not JSON, or the droplet, networks or v4 entry is missing or malformed),
    the loop raises that exception, having sent [k + 1] reads and slept [k]
    times. *)
Theorem poll_read_error_is_fatal (fuel k : nat) (id : json)
    (headers : list (string * string)) (w : world) (e : exn) :
  let poll := poll_request repr id headers in
  (k < fuel)%nat ->
  (forall j, (j < k)%nat -> nth_read api (http_log w) poll j = Ok []) ->
  nth_read api (http_log w) poll k = Err e ->
  exists w',
    wait_for_ip api repr fuel id headers w = (Raise e, w')
    /\ http_log w' = (http_log w ++ repeat poll (S k))%list
    /\ slept w' = (slept w + 5 * Z.of_nat k)%Z
    /\ tfstate w' = tfstate w.
Proof.
  intros poll Hfuel Hbefore Hat.
  exists (polled poll (S k) w). split.
  - apply (wait_for_ip_run id headers k fuel w (Err e) Hfuel Hbefore Hat).
    discriminate.
  - unfold polled. cbn [http_log slept tfstate].
    repeat split. f_equal. f_equal. lia.
Qed.

End MoreLifecycle.

(* ================================================================= *)
(** ** Reading the answers and the state file *)

Lemma public_ips_app (l1 l2 : list json) :
  public_ips (l1 ++ l2) =
    match public_ips l1 with
    | Ok a => match public_ips l2 with
              | Ok b => Ok (a ++ b)%list
              | Err e => Err e
              end
    | Err e => Err e
    end.
Proof.
  induction l1 as [|n l1 IH]; simpl.
  - destruct (public_ips l2); reflexivity.
  - destruct (getitem n "type") as [ty|e]; simpl; [|reflexivity].
    destruct (eq_str ty "public").
    + destruct (getitem n "ip_address") as [a|e]; simpl; [|reflexivity].
      rewrite IH. destruct (public_ips l1); simpl; [|reflexivity].
      destruct (public_ips l2); reflexivity.
    + exact IH.
Qed.

Lemma public_ips_private (pre : list json) :
  Forall private_entry pre -> public_ips pre = Ok [].
Proof.
  induction 1 as [|n pre (ty & Hty & Hne) _ IH]; simpl; [reflexivity|].
  rewrite Hty. simpl. rewrite Hne. exact IH.
Qed.


(** X11. The address apply records is the [ip_address] of the first network
    entry whose type is [public]; entries of other types before it are
    passed over. The list is read to its end all the same: an entry without
    a [type] makes the read raise even when a public address stands before
    it. *)
Theorem first_public_address (pre post : list json) (n ty a : json)
    (rest : list json) :
  Forall private_entry pre ->
  getitem n "type" = Ok ty ->
  eq_str ty "public" = true ->
  getitem n "ip_address" = Ok a ->
  (public_ips post = Ok rest -> public_ips (pre ++ n :: post) = Ok (a :: rest))
  /\ (forall bad e after,
        getitem bad "type" = Err e ->
        public_ips post = Ok rest ->
        public_ips (pre ++ n :: post ++ bad :: after) = Err e).
Proof.
  intros Hpre Hty Hpub Ha.
  assert (Hn : forall tl, public_ips (n :: tl) =
                 match public_ips tl with Ok b => Ok (a :: b) | Err e => Err e end).
  { intros tl. simpl. rewrite Hty. simpl. rewrite Hpub, Ha. reflexivity. }
  split.
  - intros Hpost. rewrite public_ips_app, (public_ips_private pre Hpre), Hn, Hpost.
    reflexivity.
  - intros bad e after Hbad Hpost.
    rewrite public_ips_app, (public_ips_private pre Hpre), Hn.
    rewrite public_ips_app, Hpost. simpl. rewrite Hbad. reflexivity.
Qed.


Section MoreDestroy.

Variable parse : string -> result (list block).
Variable api : list request -> request -> result response.
Variable repr : json -> string.

Lemma destroy_droplet_same_file (token : string) (id : json) :
  respects same_file (destroy_droplet api repr token id).
Proof.
  unfold destroy_droplet. cbv zeta.
  repeat (apply respects_bind; [exact same_file_trans | | intros ?]);
    try apply print_same_file; try apply send_same_file;
    try apply raise_for_status_respects; try exact same_file_refl.
Qed.

Lemma create_droplet_missing (fuel : nat) (token key : string)
    (config : gmap string string) (w : world) :
  first_missing config = Some key ->
  create_droplet api repr fuel token config w = (Raise (KeyError (JStr key)), w).
Proof.
  intros Hmiss. unfold create_droplet. cbv zeta. apply bind_raise.
  rewrite lift_run. f_equal.
  unfold first_missing in Hmiss. unfold config_getitem.
  destruct (config !! "name"); [|injection Hmiss as <-; reflexivity].
  destruct (config !! "region"); [|injection Hmiss as <-; reflexivity].
  destruct (config !! "size"); [|injection Hmiss as <-; reflexivity].
  destruct (config !! "image"); [discriminate|].
  injection Hmiss as <-. reflexivity.
Qed.

(** What [destroy_droplet] does, by the answer to the delete request. *)
Lemma destroy_droplet_run (token : string) (id : json) (w : world) :
  destroy_droplet api repr token id w =
    let w1 := log_request (delete_request repr token id)
                (add_line ("[*] Destroying droplet with ID: " ++ py_str repr id) w) in
    match api (http_log w) (delete_request repr token id) with
    | Err e => (Raise e, w1)
    | Ok resp =>
        if status_ok resp
        then (Return tt,
              add_line ("[✓] Droplet " ++ py_str repr id ++ " destroyed successfully") w1)
        else (Raise (HTTPError (status_code resp)), w1)
    end.
Proof.
  unfold destroy_droplet, requests_delete, send, raise_for_status, status_ok.
  cbv zeta.
  cbn [bind M_monad print http_log add_line].
  fold (delete_request repr token id).
  destruct (api (http_log w) (delete_request repr token id)) as [resp|e];
    [|reflexivity].
  destruct (_ && _); reflexivity.
Qed.

(** X12. Destroy, when everything goes well. With a state record loaded, the
    document interpreted and its token resolved, and the delete request
    accepted, destroy returns; it has sent one request, the delete for the
    identifier of the state record with the document's token, and the state
    file is gone. The resource blocks of the document play no part. *)
Theorem destroy_succeeds (file : string) (w w1 w2 : world) (info id : json)
    (l : TerraformListener) (token : string) (resp : response) :
  load_state_file w = (Return (Some info), w1) ->
  interpret parse file w1 = (Return l, w2) ->
  resolve_token l = Ok token ->
  getitem info "id" = Ok id ->
  api (http_log w) (delete_request repr token id) = Ok resp ->
  status_ok resp = true ->
  exists w',
    terraform_destroy parse api repr file w = (Return tt, w')
    /\ http_log w' = (http_log w ++ [delete_request repr token id])%list
    /\ tfstate w' = None.
Proof.
  intros Hload Hi Ht Hid Hapi Hok.
  destruct (load_state_file_only_prints _ _ _ Hload) as (_ & Hlog1 & _).
  destruct (interpret_only_prints _ _ _ _ _ Hi) as (_ & Hlog2 & _).
  assert (Hlog : http_log w2 = http_log w) by congruence.
  unfold terraform_destroy.
  rewrite (bind_return _ _ _ _ _ Hload).
  rewrite (bind_return _ _ _ _ _ Hi).
  rewrite (bind_return _ _ w2 w2 token) by (rewrite lift_run, Ht; reflexivity).
  rewrite (bind_return _ _ w2 w2 id) by (rewrite lift_run, Hid; reflexivity).
  pose proof (destroy_droplet_run token id w2) as Hd.
  cbv zeta in Hd. rewrite Hlog, Hapi, Hok in Hd.
  rewrite (bind_return _ _ _ _ _ Hd).
  unfold remove_state_file, try_except, os_remove.
  cbn [bind M_monad print tfstate add_line log_request].
  destruct (tfstate w2) as [f|] eqn:F.
  - eexists. split; [reflexivity|].
    cbn [http_log tfstate add_line set_tfstate log_request].
    rewrite Hlog. split; reflexivity.
  - cbn [is_FileNotFoundError ret M_monad print].
    eexists. split; [reflexivity|].
    cbn [http_log tfstate add_line set_tfstate log_request].
    rewrite Hlog. split; [reflexivity | exact F].
Qed.


(** X14. Destroy resolves the token before it sends anything: when the
    document's token cannot be resolved (none declared, or an undeclared
    variable), destroy fails with the resolution error, no request has been
    sent and the state file is kept. *)
Theorem destroy_token_failure (file : string) (w w1 w2 : world) (info : json)
    (l : TerraformListener) (e : exn) :
  load_state_file w = (Return (Some info), w1) ->
  interpret parse file w1 = (Return l, w2) ->
  resolve_token l = Err e ->
  terraform_destroy parse api repr file w = (Raise e, w2)
  /\ http_log w2 = http_log w
  /\ tfstate w2 = tfstate w.
Proof.
  intros Hload Hi Ht.
  destruct (load_state_file_only_prints _ _ _ Hload) as (Hf1 & Hlog1 & _).
  destruct (interpret_only_prints _ _ _ _ _ Hi) as (Hf2 & Hlog2 & _).
  split; [|split; congruence].
  unfold terraform_destroy.
  rewrite (bind_return _ _ _ _ _ Hload).
  rewrite (bind_return _ _ _ _ _ Hi).
  apply bind_raise. rewrite lift_run, Ht. reflexivity.
Qed.

(** X15. Destroy removes the state file only at its end: however a run of
    destroy that does not return ends, the state file is what it was. *)
Theorem destroy_keeps_state_on_failure (file : string) (w w' : world)
    (r : outcome unit) :
  terraform_destroy parse api repr file w = (r, w') ->
  r <> Return tt ->
  tfstate w' = tfstate w.
Proof.
  unfold terraform_destroy. intros Hrun Hr.
  destruct (load_state_file w) as [[[info|]|e|] w1] eqn:Hload;
    pose proof (proj1 (load_state_file_only_prints _ _ _ Hload)) as F1.
  2: { rewrite (bind_return _ _ _ _ _ Hload) in Hrun.
       injection Hrun as <- _. congruence. }
  2: { rewrite (bind_raise _ _ _ _ _ Hload) in Hrun. injection Hrun as _ <-. exact F1. }
  2: { rewrite (bind_diverge _ _ _ _ Hload) in Hrun. injection Hrun as _ <-. exact F1. }
  rewrite (bind_return _ _ _ _ _ Hload) in Hrun.
  destruct (interpret parse file w1) as [[l|e|] w2] eqn:Hi;
    pose proof (proj1 (interpret_only_prints _ _ _ _ _ Hi)) as F2.
  2: { rewrite (bind_raise _ _ _ _ _ Hi) in Hrun. injection Hrun as _ <-. congruence. }
  2: { rewrite (bind_diverge _ _ _ _ Hi) in Hrun. injection Hrun as _ <-. congruence. }
  rewrite (bind_return _ _ _ _ _ Hi) in Hrun.
  destruct (resolve_token l) as [token|e].
  2: { rewrite (bind_raise _ _ w2 w2 e) in Hrun by reflexivity.
       injection Hrun as _ <-. congruence. }
  rewrite (bind_return _ _ w2 w2 token) in Hrun by reflexivity.
  destruct (getitem info "id") as [id|e].
  2: { rewrite (bind_raise _ _ w2 w2 e) in Hrun by reflexivity.
       injection Hrun as _ <-. congruence. }
  rewrite (bind_return _ _ w2 w2 id) in Hrun by reflexivity.
  destruct (destroy_droplet api repr token id w2) as [[[]|e|] w3] eqn:Hd;
    pose proof (destroy_droplet_same_file _ _ _ _ _ Hd) as F3; unfold same_file in F3.
  2: { rewrite (bind_raise _ _ _ _ _ Hd) in Hrun. injection Hrun as _ <-. congruence. }
  2: { rewrite (bind_diverge _ _ _ _ Hd) in Hrun. injection Hrun as _ <-. congruence. }
  rewrite (bind_return _ _ _ _ _ Hd) in Hrun.
  unfold remove_state_file, try_except, os_remove in Hrun.
  cbn [bind M_monad print] in Hrun.
  destruct (tfstate w3); cbn in Hrun; injection Hrun as <- _; congruence.
Qed.

(** X17. Of the droplet configuration only name, region, size and image are
    used: two configurations that agree on these four keys give the same
    run of [create_droplet] and the same saved state, whatever other keys
    the resource block had. *)
Theorem only_four_attributes_used (fuel : nat) (token : string)
    (c1 c2 : gmap string string) (id ip : json) (w : world) :
  c1 !! "name" = c2 !! "name" ->
  c1 !! "region" = c2 !! "region" ->
  c1 !! "size" = c2 !! "size" ->
  c1 !! "image" = c2 !! "image" ->
  create_droplet api repr fuel token c1 w = create_droplet api repr fuel token c2 w
  /\ save_state_file repr c1 id ip w = save_state_file repr c2 id ip w.
Proof.
  intros Hn Hr Hs Hi.
  unfold create_droplet, save_state_file, state_attributes, config_getitem.
  rewrite Hn, Hr, Hs, Hi. split; reflexivity.
Qed.

(** X18. Once [create_droplet] has returned, saving cannot fail: the four
    attributes it needs were already read for the create request, so
    [save_state_file] returns and the state file holds the document built
    from the configuration, the identifier and the address. *)
Theorem save_after_create_succeeds (fuel : nat) (token : string)
    (config : gmap string string) (id ip : json) (w w1 : world) :
  create_droplet api repr fuel token config w = (Return (id, ip), w1) ->
  exists attrs w2,
    state_attributes repr config id ip = Ok attrs
    /\ save_state_file repr config id ip w1 = (Return tt, w2)
    /\ tfstate w2 = Some (JsonDoc (state_document attrs))
    /\ getitem attrs "ipv4_address" = Ok ip
    /\ getitem attrs "id" = Ok (JStr (py_str repr id)).
Proof.
  intros Hc.
  destruct (first_missing config) as [key|] eqn:Hmiss.
  - rewrite (create_droplet_missing fuel token key config w Hmiss) in Hc.
    discriminate.
  - destruct (first_missing_none config Hmiss)
      as (name & region & size & image & Hn & Hr & Hs & Hi).
    unfold save_state_file, state_attributes, config_getitem.
    rewrite Hn, Hr, Hs, Hi.
    eexists. eexists. repeat split.
Qed.

End MoreDestroy.

(* ================================================================= *)
(** ** The kinds of request each operation sends *)

Section RequestKinds.

Variable parse : string -> result (list block).
Variable api : list request -> request -> result response.
Variable repr : json -> string.
Variable P : request -> bool.

Lemma sends_only_refl (w : world) : sends_only P w w.
Proof. exists []. split; [symmetry; apply app_nil_r | reflexivity]. Qed.

Lemma sends_only_trans (w1 w2 w3 : world) :
  sends_only P w1 w2 -> sends_only P w2 w3 -> sends_only P w1 w3.
Proof.
  intros (t1 & E1 & F1) (t2 & E2 & F2). exists (t1 ++ t2)%list. split.
  - rewrite E2, E1, app_assoc. reflexivity.
  - rewrite forallb_app, F1, F2. reflexivity.
Qed.

Lemma sends_only_printed (w w' : world) : only_printed w w' -> sends_only P w w'.
Proof.
  intros (_ & E & _). exists []. split; [|reflexivity].
  rewrite E. symmetry. apply app_nil_r.
Qed.

Lemma sends_only_same_log (w w' : world) : http_log w' = http_log w -> sends_only P w w'.
Proof.
  intros E. exists []. split; [|reflexivity]. rewrite E. symmetry. apply app_nil_r.
Qed.

Lemma send_sends_only (r : request) : P r = true -> respects (sends_only P) (send api r).
Proof.
  intros HP w res w'. unfold send.
  destruct (api (http_log w) r); intros [= _ <-]; exists [r];
    (split; [reflexivity | simpl; rewrite HP; reflexivity]).
Qed.

Lemma quiet_sends_only {A : Type} (c : M A) :
  (forall w r w', c w = (r, w') -> http_log w' = http_log w) ->
  respects (sends_only P) c.
Proof. intros H w r w' E. apply sends_only_same_log, (H _ _ _ E). Qed.

Lemma wait_for_ip_sends_only (fuel : nat) (id : json)
    (headers : list (string * string)) :
  P (poll_request repr id headers) = true ->
  respects (sends_only P) (wait_for_ip api repr fuel id headers).
Proof.
  intros HP. induction fuel as [|fuel IH]; cbn [wait_for_ip].
  - apply respects_diverge, sends_only_refl.
  - apply respects_bind;
      [exact sends_only_trans | apply send_sends_only, HP |].
    intros resp.
    apply respects_bind;
      [exact sends_only_trans | apply respects_lift, sends_only_refl |].
    intros [|ip ips].
    + apply respects_bind; [exact sends_only_trans | | intros _; exact IH].
      apply quiet_sends_only. intros w r w' [= _ <-]. reflexivity.
    + apply respects_ret, sends_only_refl.
Qed.

End RequestKinds.

Section RequestKindsOfRuns.

Variable parse : string -> result (list block).
Variable api : list request -> request -> result response.
Variable repr : json -> string.

Ltac quiet :=
  apply quiet_sends_only; intros ? ? ? [= _ <-]; reflexivity.

Ltac seq := apply respects_bind; [apply sends_only_trans | | intros ?].

Lemma create_droplet_sends_only (fuel : nat) (token : string)
    (config : gmap string string) :
  respects (sends_only (fun q => negb (is_delete q)))
    (create_droplet api repr fuel token config).
Proof.
  unfold create_droplet. cbv zeta.
  seq; [apply respects_lift, sends_only_refl|].
  seq; [quiet|].
  seq; [apply send_sends_only; reflexivity|].
  seq; [apply raise_for_status_respects, sends_only_refl|].
  seq; [apply respects_lift, sends_only_refl|].
  seq; [apply respects_lift, sends_only_refl|].
  seq; [quiet|].
  seq; [quiet|].
  seq; [apply wait_for_ip_sends_only; reflexivity|].
  apply respects_ret, sends_only_refl.
Qed.

Lemma save_state_file_sends_nothing (P : request -> bool)
    (config : gmap string string) (id ip : json) :
  respects (sends_only P) (save_state_file repr config id ip).
Proof.
  unfold save_state_file.
  seq; [apply respects_lift, sends_only_refl|].
  seq; quiet.
Qed.

Lemma destroy_droplet_sends_only (token : string) (id : json) :
  respects (sends_only is_delete) (destroy_droplet api repr token id).
Proof.
  unfold destroy_droplet. cbv zeta.
  seq; [quiet|].
  seq; [apply send_sends_only; reflexivity|].
  seq; [apply raise_for_status_respects, sends_only_refl | quiet].
Qed.

Lemma remove_state_file_sends_nothing (P : request -> bool) :
  respects (sends_only P) remove_state_file.
Proof.
  unfold remove_state_file.
  apply respects_try_except;
    [apply sends_only_trans | | apply respects_ret, sends_only_refl].
  seq; [|quiet].
  apply quiet_sends_only. intros w0 r w'. unfold os_remove.
  destruct (tfstate w0); intros [= _ <-]; reflexivity.
Qed.

(** X19. The requests of a run are only ever added to the log, and their
    kinds are fixed by the operation: apply, however it ends, has sent no
    delete request, and destroy, however it ends, has sent nothing but
    delete requests. *)
Theorem request_kinds (fuel : nat) (file : string) (w : world) :
  (forall r w', terraform_apply parse api repr fuel file w = (r, w') ->
     exists sent, http_log w' = (http_log w ++ sent)%list
                  /\ forallb (fun q => negb (is_delete q)) sent = true)
  /\ (forall r w', terraform_destroy parse api repr file w = (r, w') ->
        exists sent, http_log w' = (http_log w ++ sent)%list
                     /\ forallb is_delete sent = true).
Proof.
  split.
  - assert (H : respects (sends_only (fun q => negb (is_delete q)))
                  (terraform_apply parse api repr fuel file)).
    { unfold terraform_apply.
      seq; [apply interpret_respects;
              [apply sends_only_trans | apply sends_only_printed]|].
      seq; [apply respects_lift, sends_only_refl|].
      destruct (dict_falsy _); [apply respects_raise, sends_only_refl|].
      seq; [apply create_droplet_sends_only|].
      destruct a1 as [id ip].
      seq; [apply save_state_file_sends_nothing|].
      seq; quiet. }
    intros r w' Hrun. exact (H w r w' Hrun).
  - assert (H : respects (sends_only is_delete)
                  (terraform_destroy parse api repr file)).
    { unfold terraform_destroy.
      seq.
      { intros w0 r w' Hl. apply sends_only_printed.
        exact (load_state_file_only_prints _ _ _ Hl). }
      destruct a as [info|]; [|quiet].
      seq; [apply interpret_respects;
              [apply sends_only_trans | apply sends_only_printed]|].
      seq; [apply respects_lift, sends_only_refl|].
      seq; [apply respects_lift, sends_only_refl|].
      seq; [apply destroy_droplet_sends_only|].
      seq; [apply remove_state_file_sends_nothing|].
      quiet. }
    intros r w' Hrun. exact (H w r w' Hrun).
Qed.

End RequestKindsOfRuns.

(* ================================================================= *)
(** ** The further properties at work *)

Lemma literal_token_resolves_witness :
  resolve_token (Listener ∅ (Some (quoted "abc123")) ∅) = Ok "abc123"
  /\ resolve_token (Listener ∅ (Some "abc123") ∅) = Ok "abc123".
Proof.
  split.
  - apply (proj1 (literal_token_resolves "abc123"
                    (Listener ∅ (Some (quoted "abc123")) ∅) eq_refl)).
    reflexivity.
  - apply (proj2 (literal_token_resolves "abc123"
                    (Listener ∅ (Some "abc123") ∅) eq_refl));
      [reflexivity | discriminate | reflexivity].
Defined.

Lemma provider_token_last_wins_witness :
  exists l w',
    walk doubled_tree new_listener world0 = (Return l, w')
    /\ provider_token_expr l = Some "var.new".
Proof.
  destruct (walk doubled_tree new_listener world0) as [[l|e|] w'] eqn:E;
    [| vm_compute in E; discriminate E ..].
  exists l, w'. split; [reflexivity|].
  apply (provider_token_last_wins
           [ProviderBlock (quoted "digitalocean") [KeyValue "token" (quoted "first")];
            ResourceBlock (quoted "digitalocean_droplet") (quoted "a")
              [KeyValue "name" (quoted "one"); KeyValue "size" (quoted "small")]]
           [ResourceBlock (quoted "digitalocean_droplet") (quoted "b")
              [KeyValue "name" (quoted "two")];
            ProviderBlock (quoted "digitalocean") []]
           (quoted "digitalocean") "var.new"
           [KeyValue "token" "var.old"] [KeyValue "region" (quoted "nyc3")]
           l world0 w' eq_refl eq_refl E).
Defined.

Lemma droplet_blocks_merge_witness :
  exists l w',
    walk doubled_tree new_listener world0 = (Return l, w')
    /\ droplet_config l !! "size" = Some "small"
    /\ droplet_config l !! "name" = Some "two".
Proof.
  destruct (walk doubled_tree new_listener world0) as [[l|e|] w'] eqn:E;
    [| vm_compute in E; discriminate E ..].
  exists l, w'. split; [reflexivity|]. split.
  - apply (droplet_blocks_merge
             [ProviderBlock (quoted "digitalocean") [KeyValue "token" (quoted "first")]]
             [ProviderBlock (quoted "digitalocean")
                [KeyValue "token" "var.old"; KeyValue "token" "var.new";
                 KeyValue "region" (quoted "nyc3")];
              ResourceBlock (quoted "digitalocean_droplet") (quoted "b")
                [KeyValue "name" (quoted "two")];
              ProviderBlock (quoted "digitalocean") []]
             (quoted "digitalocean_droplet") (quoted "a") "size" (quoted "small")
             [KeyValue "name" (quoted "one")] []
             l world0 w' eq_refl eq_refl eq_refl E).
  - apply (droplet_blocks_merge
             [ProviderBlock (quoted "digitalocean") [KeyValue "token" (quoted "first")];
              ResourceBlock (quoted "digitalocean_droplet") (quoted "a")
                [KeyValue "name" (quoted "one"); KeyValue "size" (quoted "small")];
              ProviderBlock (quoted "digitalocean")
                [KeyValue "token" "var.old"; KeyValue "token" "var.new";
                 KeyValue "region" (quoted "nyc3")]]
             [ProviderBlock (quoted "digitalocean") []]
             (quoted "digitalocean_droplet") (quoted "b") "name" (quoted "two")
             [] []
             l world0 w' eq_refl eq_refl eq_refl E).
Defined.

Lemma variable_without_default_witness :
  enterVariable (quoted "t") [KeyValue "type" "string"; KeyValue "description" (quoted "d")]
    new_listener world0 = (Return new_listener, world0).
Proof.
  apply (variable_without_default (quoted "t")
           [KeyValue "type" "string"; KeyValue "description" (quoted "d")]
           new_listener world0).
  reflexivity.
Defined.

Lemma scenario_reads_empty :
  forall j, (j < 2)%nat ->
    nth_read (api_ready_after 2)
      (http_log world0 ++
         [create_request "abc123" "x" "nyc3" "s-1vcpu-1gb" "ubuntu-22-04-x64"])%list
      (poll_request no_repr (JInt 42) (create_headers "abc123")) j = Ok [].
Proof. intros [|[|j]] Hj; [reflexivity | reflexivity | lia]. Defined.

Lemma apply_succeeds_witness :
  exists w',
    terraform_apply (parse_only "main.tf" scenario_tree) (api_ready_after 2) no_repr
      3 "main.tf" world0 = (Return tt, w')
    /\ map req_method (http_log w') = [POST; GET; GET; GET]
    /\ slept w' = 10%Z
    /\ tfstate w' = Some (JsonDoc scenario_state).
Proof.
  destruct (apply_succeeds (parse_only "main.tf" scenario_tree) (api_ready_after 2)
              no_repr 3 2 "main.tf" world0 scenario_world scenario_listener
              "abc123" "x" "nyc3" "s-1vcpu-1gb" "ubuntu-22-04-x64"
              (Response 202 (Some (JDict [("droplet", JDict [("id", JInt 42)])])))
              (JInt 42) (JStr "203.0.113.7") []
              eq_refl eq_refl eq_refl eq_refl eq_refl eq_refl eq_refl eq_refl eq_refl
              scenario_reads_empty eq_refl ltac:(lia))
    as (w' & Hrun & Hlog & Hslept & Hfile).
  exists w'. split; [exact Hrun|]. rewrite Hlog, Hslept, Hfile.
  repeat split.
Defined.

Lemma apply_missing_attribute_witness :
  terraform_apply (parse_only "main.tf" name_only_tree) (api_ready_after 2) no_repr
    3 "main.tf" world0 = (Raise (KeyError (JStr "region")), world0).
Proof.
  apply (apply_missing_attribute (parse_only "main.tf" name_only_tree)
           (api_ready_after 2) no_repr 3 "main.tf" world0 world0
           name_only_listener "abc123" "region" eq_refl eq_refl);
    [|reflexivity].
  intros H. apply (f_equal (fun m : gmap string string => m !! "name")) in H.
  vm_compute in H. discriminate H.
Defined.

Lemma apply_create_rejected_witness :
  exists w',
    terraform_apply (parse_only "main.tf" scenario_tree) api_forbidden no_repr
      3 "main.tf" world0 = (Raise (HTTPError 403), w')
    /\ map req_method (http_log w') = [POST]
    /\ tfstate w' = None.
Proof.
  destruct (apply_create_rejected (parse_only "main.tf" scenario_tree) api_forbidden
              no_repr 3 "main.tf" world0 scenario_world scenario_listener
              "abc123" "x" "nyc3" "s-1vcpu-1gb" "ubuntu-22-04-x64"
              eq_refl eq_refl eq_refl eq_refl eq_refl eq_refl
              (or_intror (ex_intro _ (Response 403 None) (conj eq_refl eq_refl))))
    as (e & w' & Hrun & Hlog & Hfile & _ & He).
  exists w'. rewrite (He (Response 403 None) eq_refl) in Hrun.
  split; [exact Hrun|]. rewrite Hlog, Hfile. split; reflexivity.
Defined.


Lemma poll_read_error_is_fatal_witness :
  exists w',
    wait_for_ip api_read_breaks no_repr 5 (JInt 42) [] world0 =
      (Raise (KeyError (JStr "droplet")), w')
    /\ length (http_log w') = 2%nat
    /\ slept w' = 5%Z.
Proof.
  destruct (poll_read_error_is_fatal api_read_breaks no_repr 5 1 (JInt 42) []
              world0 (KeyError (JStr "droplet")) ltac:(lia))
    as (w' & Hrun & Hlog & Hslept & _).
  - intros [|j] Hj; [reflexivity | lia].
  - reflexivity.
  - exists w'. split; [exact Hrun|]. rewrite Hlog, Hslept. split; reflexivity.
Defined.

Lemma first_public_address_witness :
  public_ips [private_network "10.0.0.2"; public_network "203.0.113.7";
              public_network "203.0.113.8"]
    = Ok [JStr "203.0.113.7"; JStr "203.0.113.8"]
  /\ public_ips [private_network "10.0.0.2"; public_network "203.0.113.7";
                 public_network "203.0.113.8"; JDict []]
     = Err (KeyError (JStr "type")).
Proof.
  pose proof (first_public_address [private_network "10.0.0.2"]
                [public_network "203.0.113.8"] (public_network "203.0.113.7")
                (JStr "public") (JStr "203.0.113.7") [JStr "203.0.113.8"]) as H.
  destruct H as [H1 H2]; try reflexivity.
  - constructor; [|constructor]. exists (JStr "private"). split; reflexivity.
  - split.
    + apply H1. reflexivity.
    + apply (H2 (JDict []) (KeyError (JStr "type")) []); reflexivity.
Defined.

Lemma destroy_succeeds_witness :
  exists w',
    terraform_destroy (parse_only "main.tf" scenario_tree) (api_ready_after 2) no_repr
      "main.tf" applied_world = (Return tt, w')
    /\ http_log w' =
         [Request DELETE "https://api.digitalocean.com/v2/droplets/42"
            [("Authorization", "Bearer abc123")] None]
    /\ tfstate w' = None.
Proof.
  apply (destroy_succeeds (parse_only "main.tf" scenario_tree) (api_ready_after 2)
           no_repr "main.tf" applied_world applied_world
           (add_line "[var] token = abc123" applied_world)
           (JDict [("id", JStr "42"); ("name", JStr "x"); ("ip", JStr "203.0.113.7")])
           (JStr "42") scenario_listener "abc123" (Response 204 None));
    reflexivity.
Defined.


Lemma destroy_token_failure_witness :
  terraform_destroy (parse_only "main.tf" no_token_tree) (api_ready_after 2) no_repr
    "main.tf" applied_world = (Raise MissingTokenError, applied_world).
Proof.
  apply (destroy_token_failure (parse_only "main.tf" no_token_tree)
           (api_ready_after 2) no_repr "main.tf" applied_world applied_world
           applied_world
           (JDict [("id", JStr "42"); ("name", JStr "x"); ("ip", JStr "203.0.113.7")])
           (Listener ∅ None (<["name" := "x"]> ∅)) MissingTokenError);
    reflexivity.
Defined.

Lemma destroy_keeps_state_on_failure_witness :
  tfstate (snd (terraform_destroy never_parses (api_ready_after 2) no_repr
                  "main.tf" applied_world))
  = Some (JsonDoc scenario_state).
Proof.
  destruct (terraform_destroy never_parses (api_ready_after 2) no_repr
              "main.tf" applied_world) as [r w'] eqn:E.
  apply (destroy_keeps_state_on_failure _ _ _ _ _ _ _ E).
  apply (f_equal fst) in E. vm_compute in E. subst r. discriminate.
Defined.


Lemma only_four_attributes_used_witness :
  create_droplet (api_ready_after 2) no_repr 3 "abc123"
    (<["tags" := "blue"]> scenario_config) world0
  = create_droplet (api_ready_after 2) no_repr 3 "abc123" scenario_config world0.
Proof.
  apply (only_four_attributes_used (api_ready_after 2) no_repr 3 "abc123"
           (<["tags" := "blue"]> scenario_config) scenario_config
           JNull JNull world0); reflexivity.
Defined.

Lemma save_after_create_succeeds_witness :
  exists w1 w2,
    create_droplet (api_ready_after 0) no_repr 1 "abc123" scenario_config world0
      = (Return (JInt 42, JStr "203.0.113.7"), w1)
    /\ save_state_file no_repr scenario_config (JInt 42) (JStr "203.0.113.7") w1
       = (Return tt, w2).
Proof.
  destruct (create_droplet (api_ready_after 0) no_repr 1 "abc123" scenario_config
              world0) as [r w1] eqn:E.
  assert (Hr : r = Return (JInt 42, JStr "203.0.113.7")).
  { apply (f_equal fst) in E. vm_compute in E. congruence. }
  subst r.
  destruct (save_after_create_succeeds _ _ _ _ _ _ _ _ _ E)
    as (attrs & w2 & _ & Hsave & _).
  exists w1, w2. split; [reflexivity | exact Hsave].
Defined.

Lemma request_kinds_witness :
  exists sent,
    http_log (snd (terraform_destroy (parse_only "main.tf" scenario_tree)
                     (api_ready_after 2) no_repr "main.tf" applied_world))
      = (http_log applied_world ++ sent)%list
    /\ forallb is_delete sent = true.
Proof.
  destruct (terraform_destroy (parse_only "main.tf" scenario_tree)
              (api_ready_after 2) no_repr "main.tf" applied_world) as [r w'] eqn:E.
  exact (proj2 (request_kinds (parse_only "main.tf" scenario_tree)
                  (api_ready_after 2) no_repr 0 "main.tf" applied_world) r w' E).
Defined.
